(** * PowerFlow: the flow reconstructor, the temporal aggregator and the
      energy formatter of [src/app.py], as a shallow embedding.

    A pandas [DataFrame] is an ordered list of named columns; a column is a
    typed series.  Numbers are IEEE binary64 values (Rocq's primitive floats),
    timestamps are nanoseconds since the Unix epoch with [None] for [NaT].
    Exceptions are values of an error type, threaded through a small error
    monad. *)

From Stdlib Require Import ZArith List String Ascii Bool Floats Permutation Lia.
From Stdlib Require Import DecimalString FinFun.
Import ListNotations.

Local Open Scope string_scope.
Local Open Scope Z_scope.

(** ** Errors *)

(** The exceptions [load_data] and [aggregate] can raise.  The first three are
    the [RuntimeError]s the source raises itself; the others come out of the
    pandas calls it makes. *)
Inductive error : Type :=
| SchemaError        (* "Cannot construct 'datetime' ..." *)
| AllNaTError        (* "All 'datetime' values are NaT after conversion." *)
| NoNetColumnsError  (* "No net_* columns could be constructed ..." *)
| ValueError         (* astype(float) on unparsable text, astype(int) on inf *)
| TypeError          (* numeric operation on a non-numeric series *)
| OverflowError      (* datetime64 + timedelta64 outside the int64 range *)
| KeyError.          (* df[name] for a name that is not a column *)

Inductive result (A : Type) : Type :=
| Ok (a : A)
| Err (e : error).
Arguments Ok {A} a.
Arguments Err {A} e.

Definition bind {A B : Type} (r : result A) (k : A -> result B) : result B :=
  match r with
  | Ok a => k a
  | Err e => Err e
  end.

Notation "x <- r ;; k" := (bind r (fun x => k))
  (at level 61, r at next level, right associativity).

Fixpoint mapM {A B : Type} (f : A -> result B) (l : list A) : result (list B) :=
  match l with
  | [] => Ok []
  | a :: l' => b <- f a ;; bs <- mapM f l' ;; Ok (b :: bs)
  end.

(** ** Series and data frames *)

(** A calendar date, as Python's [datetime.date]: year, month, day. *)
Definition date : Type := (Z * Z * Z)%type.

(** The dtypes that occur.  A table read by [pd.read_csv] has numeric columns
    and text columns; a numeric column is carried as [SFloat], its float64
    values, with NaN for a missing cell (an all-integer column is carried by
    the float64 values of its integers).  The other dtypes are the ones
    [load_data] and [aggregate] create. *)
Inductive series : Type :=
| SFloat (xs : list float)             (* float64, NaN = missing *)
| SObject (xs : list (option string))  (* object: text, None = missing *)
| SDatetime (xs : list (option Z))     (* datetime64[ns], None = NaT *)
| SInt (xs : list Z)                   (* int64 *)
| SDate (xs : list (option date))      (* .dt.date, None = NaT *)
| SField (xs : list (option Z))        (* .dt.year/.dt.day/.dt.hour, None = NaN *)
| SLabel (xs : list string).           (* to_period("M").astype(str) *)

Definition series_len (s : series) : nat :=
  match s with
  | SFloat xs => List.length xs
  | SObject xs => List.length xs
  | SDatetime xs => List.length xs
  | SInt xs => List.length xs
  | SDate xs => List.length xs
  | SField xs => List.length xs
  | SLabel xs => List.length xs
  end.

Definition dataframe : Type := list (string * series).

Definition columns (df : dataframe) : list string := map fst df.

(** [name in df.columns] and [df[name]]. *)
Fixpoint get_col (df : dataframe) (name : string) : option series :=
  match df with
  | [] => None
  | (n, s) :: rest => if String.eqb n name then Some s else get_col rest name
  end.

Definition has_col (df : dataframe) (name : string) : bool :=
  match get_col df name with
  | Some _ => true
  | None => false
  end.

(** [df[name] = s]: an existing column is replaced where it stands, a new one
    is appended on the right. *)
Fixpoint set_col (df : dataframe) (name : string) (s : series) : dataframe :=
  match df with
  | [] => [(name, s)]
  | (n, s0) :: rest =>
      if String.eqb n name then (n, s) :: rest
      else (n, s0) :: set_col rest name s
  end.

(** [df.drop(columns=[c for c in df.columns if p c])]. *)
Definition drop_cols (p : string -> bool) (df : dataframe) : dataframe :=
  filter (fun c => negb (p (fst c))) df.

(** [len(df)]: the number of rows, the length of the index every column
    shares. *)
Definition nrows (df : dataframe) : nat :=
  match df with
  | [] => 0%nat
  | (_, s) :: _ => series_len s
  end.

(** Every column has [n] cells. *)
Definition well_formed (n : nat) (df : dataframe) : Prop :=
  Forall (fun c => series_len (snd c) = n) df.

Fixpoint zip_with {A B C : Type} (f : A -> B -> C) (xs : list A) (ys : list B)
  : list C :=
  match xs, ys with
  | x :: xs', y :: ys' => f x y :: zip_with f xs' ys'
  | _, _ => []
  end.

(** ** What the source takes from pandas, Python and the platform *)

(** [pd.to_datetime(s, errors="coerce")] is a parser of pandas: it returns one
    timestamp or [NaT] per cell.  [float(text)] is Python's.  The value of a
    float64 to int64 cast outside the int64 range depends on the platform. *)
Record Pandas : Type := {
  to_datetime : series -> list (option Z);
  to_datetime_length : forall s, List.length (to_datetime s) = series_len s;
  float_of_text : string -> option float;
  int64_of_out_of_range : float -> Z
}.

(** ** Calendar *)

Definition ns_per_hour : Z := 3600 * 1000000000.
Definition ns_per_day : Z := 24 * ns_per_hour.
Definition int64_min : Z := - 2 ^ 63.
Definition int64_max : Z := 2 ^ 63 - 1.

(** Days since 1970-01-01 to (year, month, day), proleptic Gregorian. *)
Definition civil_from_days (z : Z) : date :=
  let z := z + 719468 in
  let era := z / 146097 in
  let doe := z - era * 146097 in
  let yoe := (doe - doe / 1460 + doe / 36524 - doe / 146096) / 365 in
  let y := yoe + era * 400 in
  let doy := doe - (365 * yoe + yoe / 4 - yoe / 100) in
  let mp := (5 * doy + 2) / 153 in
  let d := doy - (153 * mp + 2) / 5 + 1 in
  let m := if mp <? 10 then mp + 3 else mp - 9 in
  (if m <=? 2 then y + 1 else y, m, d).

Definition days_from_civil (y m d : Z) : Z :=
  let y := if m <=? 2 then y - 1 else y in
  let era := y / 400 in
  let yoe := y - era * 400 in
  let doy := (153 * (if 2 <? m then m - 3 else m + 9) + 2) / 5 + d - 1 in
  let doe := yoe * 365 + yoe / 4 - yoe / 100 + doy in
  era * 146097 + doe - 719468.

Definition day_number (t : Z) : Z := t / ns_per_day.

Definition dt_date (t : Z) : date := civil_from_days (day_number t).
Definition dt_year (t : Z) : Z := let '(y, _, _) := dt_date t in y.
Definition dt_month (t : Z) : Z := let '(_, m, _) := dt_date t in m.
Definition dt_day (t : Z) : Z := let '(_, _, d) := dt_date t in d.
Definition dt_hour (t : Z) : Z := (t mod ns_per_day) / ns_per_hour.

Definition string_of_Z (z : Z) : string :=
  NilZero.string_of_int (Z.to_int z).

Definition two_digits (z : Z) : string :=
  if z <? 10 then "0" ++ string_of_Z z else string_of_Z z.

(** [ts.to_period("M").astype(str)]: "YYYY-MM", and "NaT" for [NaT]. *)
Definition month_label (t : option Z) : string :=
  match t with
  | Some t => string_of_Z (dt_year t) ++ "-" ++ two_digits (dt_month t)
  | None => "NaT"
  end.

(** ** Floats *)

Definition fillna0 (x : float) : float :=
  if PrimFloat.is_nan x then 0%float else x.

(** The integer part of a finite float, rounded toward zero; [None] for NaN
    and the infinities. *)
Definition trunc_float (x : float) : option Z :=
  match Prim2SF x with
  | S754_zero _ => Some 0
  | S754_finite s m e =>
      let a := if 0 <=? e then Z.pos m * 2 ^ e else Z.pos m / 2 ^ (- e) in
      Some (if s then - a else a)
  | S754_infinity _ => None
  | S754_nan => None
  end.

(** One cell of [Series.astype(int)] on float64: NaN and the infinities raise,
    the others are cast as C does. *)
Definition astype_int (P : Pandas) (x : float) : result Z :=
  match trunc_float x with
  | None => Err ValueError
  | Some z =>
      if (int64_min <=? z) && (z <=? int64_max) then Ok z
      else Ok (int64_of_out_of_range P x)
  end.

Definition clip (lower upper z : Z) : Z :=
  if z <? lower then lower else if upper <? z then upper else z.

(** The float64 nearest to an integer (round to nearest, ties to even). *)
Definition float_of_Z (z : Z) : float :=
  SF2Prim (binary_normalize prec emax z 0 false).

(** [float(text)] on one cell of a text series, NaN for a missing cell. *)
Definition float_of_cell (P : Pandas) (c : option string) : result float :=
  match c with
  | None => Ok nan
  | Some t =>
      match float_of_text P t with
      | Some x => Ok x
      | None => Err ValueError
      end
  end.

(** [s.astype(float)]. *)
Definition astype_float (P : Pandas) (s : series) : result (list float) :=
  match s with
  | SFloat xs => Ok xs
  | SObject xs => mapM (float_of_cell P) xs
  | SInt zs => Ok (map float_of_Z zs)
  | SField zs =>
      Ok (map (fun z => match z with Some z => float_of_Z z | None => nan end) zs)
  | SLabel ts => mapM (fun t => float_of_cell P (Some t)) ts
  | SDatetime _ => Err TypeError
  | SDate _ => Err TypeError
  end.

(** [nansum]: the sum pandas computes with [skipna=True], left to right from
    0, a NaN adding nothing. *)
Definition nanadd (acc x : float) : float :=
  if PrimFloat.is_nan x then acc else (acc + x)%float.

Definition nansum (xs : list float) : float := fold_left nanadd xs 0%float.

(** ** The flow reconstructor: [load_data] *)

Definition slot_col : string := "Tranche horaire du programme d'échange".

(** [s.astype(float).fillna(0).astype(int).clip(lower=0, upper=23)]. *)
Definition hour_slot (P : Pandas) (s : series) : result (list Z) :=
  xs <- astype_float P s ;;
  zs <- mapM (astype_int P) (map fillna0 xs) ;;
  Ok (map (clip 0 23) zs).

(** One cell of [dates + pd.to_timedelta(hours, unit="h")]. *)
Definition add_hours (d : option Z) (h : Z) : result (option Z) :=
  match d with
  | None => Ok None
  | Some t =>
      let r := t + h * ns_per_hour in
      if (int64_min <? r) && (r <=? int64_max) then Ok (Some r)
      else Err OverflowError
  end.

Definition compose_datetime (dates : list (option Z)) (hours : list Z)
  : result (list (option Z)) :=
  mapM (fun p => add_hours (fst p) (snd p)) (combine dates hours).

(** Lines 29-45: the combined timestamp when the table has one, else the
    calendar date plus the hour slot, else the schema error. *)
Definition resolve_datetime (P : Pandas) (df : dataframe) : result dataframe :=
  match get_col df "datetime" with
  | Some s => Ok (set_col df "datetime" (SDatetime (to_datetime P s)))
  | None =>
      match get_col df "Date", get_col df slot_col with
      | Some d, Some h =>
          let dates := to_datetime P d in
          let df := set_col df "Date" (SDatetime dates) in
          hours <- hour_slot P h ;;
          let df := set_col df "hour" (SInt hours) in
          dt <- compose_datetime dates hours ;;
          Ok (set_col df "datetime" (SDatetime dt))
      | _, _ => Err SchemaError
      end
  end.

(** [df["datetime"]] as a datetime64 series. *)
Definition datetime_values (df : dataframe) : result (list (option Z)) :=
  match get_col df "datetime" with
  | Some (SDatetime ts) => Ok ts
  | Some _ => Err TypeError
  | None => Err KeyError
  end.

Definition is_nat (t : option Z) : bool :=
  match t with
  | None => true
  | Some _ => false
  end.

(** [ts.isna().all()]. *)
Definition isna_all (ts : list (option Z)) : bool := forallb is_nat ts.

(** [c.startswith("net_")]. *)
Definition is_net (c : string) : bool := String.prefix "net_" c.

Definition partner_configs : list (string * (string * string)) :=
  [ ("GBR", ("FR vers GB (MWh)", "GB vers FR (MWh)"));
    ("CHE", ("FR vers CH (MWh)", "CH vers FR (MWh)"));
    ("ITA", ("FR vers IT (MWh)", "IT vers FR (MWh)"));
    ("ESP", ("FR vers ES (MWh)", "ES vers FR (MWh)"));
    ("CWE/Core", ("FR->CWE/Core", "CWE/Core->FR")) ].

Definition net_name (code : string) : string := "net_" ++ code.

(** [s.fillna(0.0).abs()]: defined on a numeric series, a [TypeError] on
    text. *)
Definition abs_fillna (s : series) : result (list float) :=
  match s with
  | SFloat xs => Ok (map (fun x => PrimFloat.abs (fillna0 x)) xs)
  | _ => Err TypeError
  end.

(** Lines 65-72: the loop over the partner configuration. *)
Fixpoint recompute_nets (cfg : list (string * (string * string)))
  (df : dataframe) : result dataframe :=
  match cfg with
  | [] => Ok df
  | (code, (exp_col, imp_col)) :: rest =>
      match get_col df exp_col, get_col df imp_col with
      | Some e, Some i =>
          export_mwh <- abs_fillna e ;;
          import_mwh <- abs_fillna i ;;
          recompute_nets rest
            (set_col df (net_name code)
               (SFloat (zip_with PrimFloat.sub export_mwh import_mwh)))
      | _, _ => recompute_nets rest df
      end
  end.

Definition float_values (s : series) : result (list float) :=
  match s with
  | SFloat xs => Ok xs
  | _ => Err TypeError
  end.

(** [df[names]] as a list of float columns. *)
Definition select_floats (df : dataframe) (names : list string)
  : result (list (list float)) :=
  mapM (fun n => match get_col df n with
                 | Some s => float_values s
                 | None => Err KeyError
                 end) names.

(** The cells of row [i] in the given columns. *)
Definition row_of (cols : list (list float)) (i : nat) : list float :=
  map (fun c => nth i c nan) cols.

(** [df[names].sum(axis=1)] on [n] rows. *)
Definition sum_axis1 (n : nat) (cols : list (list float)) : list float :=
  map (fun i => nansum (row_of cols i)) (seq 0 n).

(** Lines 85-90: the calendar columns, from the [datetime] column. *)
Definition add_calendar (df : dataframe) : result dataframe :=
  ts <- datetime_values df ;;
  let df := set_col df "date" (SDate (map (option_map dt_date) ts)) in
  let df := set_col df "year" (SField (map (option_map dt_year) ts)) in
  let df := set_col df "month" (SLabel (map month_label ts)) in
  let df := set_col df "day" (SField (map (option_map dt_day) ts)) in
  let df := set_col df "hour" (SField (map (option_map dt_hour) ts)) in
  Ok df.

(** [load_data], from the table [pd.read_csv] returned. *)
Definition load_data (P : Pandas) (raw : dataframe) : result dataframe :=
  df <- resolve_datetime P raw ;;
  ts <- datetime_values df ;;
  if isna_all ts then Err AllNaTError
  else
    let df := drop_cols is_net df in
    df <- recompute_nets partner_configs df ;;
    let net_cols := filter is_net (columns df) in
    match net_cols with
    | [] => Err NoNetColumnsError
    | _ :: _ =>
        cols <- select_floats df net_cols ;;
        let df := set_col df "net_total" (SFloat (sum_axis1 (nrows df) cols)) in
        add_calendar df
    end.

(** ** The temporal aggregator: [aggregate] *)

(** The resampling rules the dashboard passes as [freq]: "H", "D", "W" (weeks
    ending on Sunday) and "M" (calendar months, labelled by their last day). *)
Inductive granularity : Type := Hourly | Daily | Weekly | Monthly.

(** The bucket a timestamp falls in, as an integer that grows by one from a
    bucket to the next.  Hours and days are counted from the epoch; a week is
    closed on its Sunday (1970-01-04 is day 3); a month is year * 12 + month
    - 1. *)
Definition bucket_of (g : granularity) (t : Z) : Z :=
  match g with
  | Hourly => t / ns_per_hour
  | Daily => day_number t
  | Weekly => (day_number t + 10) / 7
  | Monthly => dt_year t * 12 + (dt_month t - 1)
  end.

(** The timestamp pandas labels a bucket with: the start of an hour or a day,
    the Sunday ending a week, the last day of a month. *)
Definition bucket_label (g : granularity) (k : Z) : Z :=
  match g with
  | Hourly => k * ns_per_hour
  | Daily => k * ns_per_day
  | Weekly => (7 * k - 4) * ns_per_day
  | Monthly =>
      (days_from_civil ((k + 1) / 12) ((k + 1) mod 12 + 1) 1 - 1) * ns_per_day
  end.

(** The rows with a timestamp; [resample] leaves the [NaT] rows out. *)
Fixpoint resolved_rows (ts : list (option Z)) (xs : list float)
  : list (Z * float) :=
  match ts, xs with
  | Some t :: ts', x :: xs' => (t, x) :: resolved_rows ts' xs'
  | None :: ts', _ :: xs' => resolved_rows ts' xs'
  | _, _ => []
  end.

(** [resample] orders the rows by timestamp first, with a stable sort. *)
Fixpoint insert_by_time (r : Z * float) (l : list (Z * float))
  : list (Z * float) :=
  match l with
  | [] => [r]
  | r' :: l' =>
      if fst r <=? fst r' then r :: l else r' :: insert_by_time r l'
  end.

Definition sort_by_time (l : list (Z * float)) : list (Z * float) :=
  fold_right insert_by_time [] l.

(** The values of one column in bucket [k], in time order. *)
Definition bucket_rows (g : granularity) (k : Z) (ts : list (option Z))
  (xs : list float) : list float :=
  map snd (filter (fun r => bucket_of g (fst r) =? k)
             (sort_by_time (resolved_rows ts xs))).

(** Every bucket from the first to the last one a timestamp falls in, empty
    ones included. *)
Definition bucket_range (keys : list Z) : list Z :=
  match keys with
  | [] => []
  | k :: keys' =>
      let lo := fold_left Z.min keys' k in
      let hi := fold_left Z.max keys' k in
      map (fun i => lo + Z.of_nat i) (seq 0 (Z.to_nat (hi - lo + 1)))
  end.

Definition resolved_keys (g : granularity) (ts : list (option Z)) : list Z :=
  flat_map (fun t => match t with
                     | Some t => [bucket_of g t]
                     | None => []
                     end) ts.

(** [.resample(freq).agg("sum")] on one column: the sum of each bucket. *)
Definition resample_sum (g : granularity) (buckets : list Z)
  (ts : list (option Z)) (xs : list float) : list float :=
  map (fun k => nansum (bucket_rows g k ts xs)) buckets.

Definition flow_families : list string :=
  [ "FR vers"; "GB vers"; "CH vers"; "IT vers"; "ES vers"; "Export France";
    "Import France"; "net_"; "FR->CWE"; "CWE/Core->FR" ].

(** [c.startswith((...))] with a tuple of prefixes. *)
Definition starts_with_any (prefixes : list string) (c : string) : bool :=
  existsb (fun p => String.prefix p c) prefixes.

Definition sum_column (g : granularity) (buckets : list Z)
  (ts : list (option Z)) (c : string * series) : result (string * series) :=
  xs <- float_values (snd c) ;;
  Ok (fst c, SFloat (resample_sum g buckets ts xs)).

(** [aggregate]: the flow and net columns summed per bucket, then the calendar
    fields of the bucket labels.  A table with rows and no timestamp at all
    gives pandas no date range to build and raises. *)
Definition aggregate (df : dataframe) (g : granularity) : result dataframe :=
  ts <- datetime_values df ;;
  let keys := resolved_keys g ts in
  match ts, keys with
  | _ :: _, [] => Err ValueError
  | _, _ =>
      let buckets := bucket_range keys in
      let selected :=
        filter (fun c => starts_with_any flow_families (fst c)) df in
      sums <- mapM (sum_column g buckets ts) selected ;;
      let labels := map (fun k => Some (bucket_label g k)) buckets in
      let agg := ("datetime", SDatetime labels) :: sums in
      let agg := set_col agg "date" (SDate (map (option_map dt_date) labels)) in
      let agg := set_col agg "month" (SLabel (map month_label labels)) in
      let agg := set_col agg "year" (SField (map (option_map dt_year) labels)) in
      Ok agg
  end.


(** ** The energy formatter: [format_mwh] *)

(** The quotient of two non-negative integers rounded to the nearest integer,
    a tie going to the even one. *)
Definition round_half_even (num den : Z) : Z :=
  let q := num / den in
  let r := num mod den in
  if 2 * r <? den then q
  else if den <? 2 * r then q + 1
  else if Z.even q then q else q + 1.

(** |m * 2^e| * 10^decimals as an integer, correctly rounded. *)
Definition scaled (decimals : Z) (m : positive) (e : Z) : Z :=
  if 0 <=? e then Z.pos m * 2 ^ e * 10 ^ decimals
  else round_half_even (Z.pos m * 10 ^ decimals) (2 ^ (- e)).

(** A comma after every third digit, on the digits in reverse order. *)
Fixpoint group3 (l : list ascii) : list ascii :=
  match l with
  | a :: b :: c :: ((_ :: _) as rest) => a :: b :: c :: ","%char :: group3 rest
  | _ => l
  end.

Definition grouped (n : Z) : string :=
  string_of_list_ascii (rev (group3 (rev (list_ascii_of_string (string_of_Z n))))).

(** The digits of a scaled magnitude: the grouped integer part and, with one
    decimal, the tenths. *)
Definition fixed_digits (decimals : Z) (n : Z) : string :=
  if decimals =? 0 then grouped n
  else grouped (n / 10) ++ "." ++ string_of_Z (n mod 10).

(** Python's [f"{x:,.0f}"] (decimals 0) and [f"{x:,.1f}"] (decimals 1). *)
Definition format_fixed (decimals : Z) (x : float) : string :=
  match Prim2SF x with
  | S754_nan => "nan"
  | S754_infinity s => if s then "-inf" else "inf"
  | S754_zero s => (if s then "-" else "") ++ fixed_digits decimals 0
  | S754_finite s m e =>
      (if s then "-" else "") ++ fixed_digits decimals (scaled decimals m e)
  end.

(** [text.replace(",", " ")]. *)
Fixpoint replace_commas (t : string) : string :=
  match t with
  | EmptyString => EmptyString
  | String c t' =>
      String (if Ascii.eqb c ","%char then " "%char else c) (replace_commas t')
  end.

(** The text returned for a missing value: an em dash. *)
Definition placeholder : string := "—".

Definition format_mwh (x : float) : string :=
  if PrimFloat.is_nan x then placeholder
  else
    let abs_x := PrimFloat.abs x in
    if (1e6 <=? abs_x)%float then
      replace_commas (format_fixed 1 (x / 1e6)%float ++ " TWh")
    else if (1e3 <=? abs_x)%float then
      replace_commas (format_fixed 1 (x / 1e3)%float ++ " GWh")
    else replace_commas (format_fixed 0 x ++ " MWh").

(** ** A reference environment

    An instance of [Pandas] to run the model on concrete tables: ISO 8601
    texts "YYYY-MM-DD" and "YYYY-MM-DD HH:MM:SS" are timestamps, numbers are
    nanoseconds since the epoch, every other text is [NaT]; [float] reads a
    decimal integer literal; an out-of-range cast gives the smallest int64, as
    on x86-64. *)

Definition digit_of (c : ascii) : option Z :=
  let n := Z.of_nat (nat_of_ascii c) in
  if (48 <=? n) && (n <=? 57) then Some (n - 48) else None.

Fixpoint digits_value (cs : list ascii) (acc : Z) : option Z :=
  match cs with
  | [] => Some acc
  | c :: cs' =>
      match digit_of c with
      | Some d => digits_value cs' (10 * acc + d)
      | None => None
      end
  end.

Definition number_of (cs : list ascii) : option Z :=
  match cs with
  | [] => None
  | _ :: _ => digits_value cs 0
  end.

Definition is_leap (y : Z) : bool :=
  ((y mod 4 =? 0) && negb (y mod 100 =? 0)) || (y mod 400 =? 0).

Definition days_in_month (y m : Z) : Z :=
  if m =? 2 then (if is_leap y then 29 else 28)
  else if (m =? 4) || (m =? 6) || (m =? 9) || (m =? 11) then 30
  else 31.

Definition iso_date (y m d : list ascii) : option Z :=
  match number_of y, number_of m, number_of d with
  | Some y, Some m, Some d =>
      if (1678 <=? y) && (y <=? 2261) && (1 <=? m) && (m <=? 12)
         && (1 <=? d) && (d <=? days_in_month y m)
      then Some (days_from_civil y m d * ns_per_day)
      else None
  | _, _, _ => None
  end.

Definition iso_time (h m s : list ascii) : option Z :=
  match number_of h, number_of m, number_of s with
  | Some h, Some m, Some s =>
      if (h <? 24) && (m <? 60) && (s <? 60)
      then Some ((h * 3600 + m * 60 + s) * 1000000000)
      else None
  | _, _, _ => None
  end.

Definition iso_timestamp (t : string) : option Z :=
  match list_ascii_of_string t with
  | [y1; y2; y3; y4; "-"; m1; m2; "-"; d1; d2]%char =>
      iso_date [y1; y2; y3; y4] [m1; m2] [d1; d2]
  | [y1; y2; y3; y4; "-"; m1; m2; "-"; d1; d2; " ";
     h1; h2; ":"; n1; n2; ":"; s1; s2]%char =>
      match iso_date [y1; y2; y3; y4] [m1; m2] [d1; d2],
            iso_time [h1; h2] [n1; n2] [s1; s2] with
      | Some d, Some s => Some (d + s)
      | _, _ => None
      end
  | _ => None
  end.

Definition epoch_ns (x : float) : option Z :=
  match trunc_float x with
  | Some z => if (int64_min <? z) && (z <=? int64_max) then Some z else None
  | None => None
  end.

Definition ref_to_datetime (s : series) : list (option Z) :=
  match s with
  | SFloat xs => map epoch_ns xs
  | SObject xs =>
      map (fun c => match c with Some t => iso_timestamp t | None => None end) xs
  | SDatetime ts => ts
  | SInt zs => map Some zs
  | SDate ds =>
      map (option_map (fun d : date =>
             let '(y, m, d) := d in days_from_civil y m d * ns_per_day)) ds
  | SField zs => zs
  | SLabel ts => map iso_timestamp ts
  end.

Definition ref_float_of_text (t : string) : option float :=
  match list_ascii_of_string t with
  | "-"%char :: cs => option_map (fun z => float_of_Z (- z)) (number_of cs)
  | cs => option_map float_of_Z (number_of cs)
  end.

Lemma ref_to_datetime_length :
  forall s, List.length (ref_to_datetime s) = series_len s.
Proof.
  destruct s; simpl; try reflexivity; apply length_map.
Qed.

Definition reference : Pandas :=
  {| to_datetime := ref_to_datetime;
     to_datetime_length := ref_to_datetime_length;
     float_of_text := ref_float_of_text;
     int64_of_out_of_range := fun _ => int64_min |}.

Example iso_timestamp_midnight :
  iso_timestamp "2020-01-01" = Some (18262 * ns_per_day).
Proof. reflexivity. Qed.

Example iso_timestamp_hour :
  iso_timestamp "2020-01-01 05:00:00"
  = Some (18262 * ns_per_day + 5 * ns_per_hour).
Proof. reflexivity. Qed.

Example civil_from_days_2020 : civil_from_days 18262 = (2020, 1, 1).
Proof. reflexivity. Qed.

Example civil_from_days_leap : civil_from_days 19782 = (2024, 2, 29).
Proof. reflexivity. Qed.

Example month_label_2020 :
  month_label (Some (18262 * ns_per_day)) = "2020-01".
Proof. reflexivity. Qed.

(** * Properties *)

(** ** Data frames *)

Lemma get_set_same (df : dataframe) (n : string) (s : series) :
  get_col (set_col df n s) n = Some s.
Proof.
  induction df as [| [m s0] rest IH]; simpl.
  - now rewrite String.eqb_refl.
  - destruct (String.eqb m n) eqn:E; simpl; rewrite E; auto.
Qed.

Lemma get_set_other (df : dataframe) (n m : string) (s : series) :
  n <> m -> get_col (set_col df n s) m = get_col df m.
Proof.
  intros Hnm.
  induction df as [| [k s0] rest IH]; simpl.
  - apply String.eqb_neq in Hnm. now rewrite Hnm.
  - destruct (String.eqb k n) eqn:E; simpl.
    + apply String.eqb_eq in E. subst k.
      apply String.eqb_neq in Hnm. now rewrite Hnm.
    + now rewrite IH.
Qed.

Lemma get_drop_keep (p : string -> bool) (df : dataframe) (m : string) :
  p m = false -> get_col (drop_cols p df) m = get_col df m.
Proof.
  intros Hm.
  induction df as [| [k s0] rest IH]; simpl; auto.
  destruct (p k) eqn:Hk; simpl.
  - destruct (String.eqb k m) eqn:E; auto.
    apply String.eqb_eq in E. congruence.
  - now rewrite IH.
Qed.

Lemma get_drop_gone (p : string -> bool) (df : dataframe) (m : string) :
  p m = true -> get_col (drop_cols p df) m = None.
Proof.
  intros Hm.
  induction df as [| [k s0] rest IH]; simpl; auto.
  destruct (p k) eqn:Hk; simpl; auto.
  destruct (String.eqb k m) eqn:E; auto.
  apply String.eqb_eq in E. congruence.
Qed.

Lemma drop_set_commute (p : string -> bool) (df : dataframe) (n : string)
  (s : series) :
  p n = false -> drop_cols p (set_col df n s) = set_col (drop_cols p df) n s.
Proof.
  intros Hn.
  induction df as [| [k s0] rest IH]; simpl.
  - now rewrite Hn.
  - destruct (String.eqb k n) eqn:E; simpl.
    + apply String.eqb_eq in E. subst k. rewrite Hn. simpl.
      now rewrite String.eqb_refl.
    + destruct (p k); simpl; rewrite IH; auto.
      now rewrite E.
Qed.

Lemma drop_drop (p : string -> bool) (df : dataframe) :
  drop_cols p (drop_cols p df) = drop_cols p df.
Proof.
  unfold drop_cols.
  induction df as [| c rest IH]; simpl; auto.
  destruct (p (fst c)) eqn:E; simpl; auto.
  rewrite E. simpl. now rewrite IH.
Qed.

Lemma get_col_in_columns (df : dataframe) (n : string) :
  get_col df n = None <-> ~ In n (columns df).
Proof.
  induction df as [| [k s0] rest IH]; simpl.
  - tauto.
  - destruct (String.eqb k n) eqn:E.
    + apply String.eqb_eq in E. split; [discriminate | tauto].
    + apply String.eqb_neq in E. rewrite IH. tauto.
Qed.

Lemma columns_set_new (df : dataframe) (n : string) (s : series) :
  get_col df n = None -> columns (set_col df n s) = (columns df ++ [n])%list.
Proof.
  induction df as [| [k s0] rest IH]; simpl; auto.
  destruct (String.eqb k n); [discriminate |].
  intros H. simpl. f_equal. now apply IH.
Qed.

Lemma columns_set_old (df : dataframe) (n : string) (s s' : series) :
  get_col df n = Some s' -> columns (set_col df n s) = columns df.
Proof.
  induction df as [| [k s0] rest IH]; simpl; [discriminate |].
  destruct (String.eqb k n); auto.
  intros H. simpl. f_equal. now apply IH.
Qed.

Lemma bind_ok {A B : Type} (r : result A) (k : A -> result B) (b : B) :
  (x <- r ;; k x) = Ok b -> exists a, r = Ok a /\ k a = Ok b.
Proof.
  destruct r; simpl; [eauto | discriminate].
Qed.

Lemma mapM_length {A B : Type} (f : A -> result B) (l : list A) (r : list B) :
  mapM f l = Ok r -> List.length r = List.length l.
Proof.
  revert r.
  induction l as [| a l IH]; simpl; intros r H.
  - now inversion H.
  - apply bind_ok in H. destruct H as (b & _ & H).
    apply bind_ok in H. destruct H as (bs & Hbs & H).
    inversion H. simpl. f_equal. now apply IH.
Qed.

(** ** Pre-existing net columns (C3) *)

Lemma resolve_datetime_drop (P : Pandas) (raw : dataframe) :
  resolve_datetime P (drop_cols is_net raw)
  = (df <- resolve_datetime P raw ;; Ok (drop_cols is_net df)).
Proof.
  unfold resolve_datetime.
  rewrite !get_drop_keep by reflexivity.
  destruct (get_col raw "datetime") as [s |].
  - simpl. now rewrite drop_set_commute.
  - destruct (get_col raw "Date") as [d |]; [| reflexivity].
    destruct (get_col raw slot_col) as [h |]; [| reflexivity].
    destruct (hour_slot P h) as [hours | e]; [| reflexivity].
    simpl.
    destruct (compose_datetime (to_datetime P d) hours) as [dt | e];
      [| reflexivity].
    simpl. now rewrite !drop_set_commute.
Qed.

Lemma datetime_values_drop (df : dataframe) :
  datetime_values (drop_cols is_net df) = datetime_values df.
Proof.
  unfold datetime_values. now rewrite get_drop_keep.
Qed.

(** C3. Loading a table that already has [net_*] columns gives the same
    result, table or error, as loading it with those columns removed first:
    they are dropped before recomputation and influence nothing. *)
Theorem load_data_ignores_old_net_columns (P : Pandas) (raw : dataframe) :
  load_data P (drop_cols is_net raw) = load_data P raw.
Proof.
  unfold load_data.
  rewrite resolve_datetime_drop.
  destruct (resolve_datetime P raw) as [df | e]; [| reflexivity].
  simpl. rewrite datetime_values_drop.
  destruct (datetime_values df) as [ts | e]; [| reflexivity].
  simpl. now rewrite drop_drop.
Qed.

(** ** Per-partner net flows (C1) *)

Lemma resolve_datetime_get_other (P : Pandas) (raw df : dataframe) (n : string) :
  resolve_datetime P raw = Ok df ->
  n <> "datetime" -> n <> "Date" -> n <> "hour" ->
  get_col df n = get_col raw n.
Proof.
  unfold resolve_datetime. intros H H1 H2 H3.
  destruct (get_col raw "datetime") as [s |].
  - inversion H. now rewrite get_set_other by congruence.
  - destruct (get_col raw "Date") as [d |]; [| discriminate].
    destruct (get_col raw slot_col) as [h |]; [| discriminate].
    apply bind_ok in H. destruct H as (hours & _ & H).
    apply bind_ok in H. destruct H as (dt & _ & H).
    inversion H.
    now rewrite !get_set_other by congruence.
Qed.

Lemma is_net_net_name (code : string) : is_net (net_name code) = true.
Proof.
  unfold is_net, net_name. simpl.
  destruct code; reflexivity.
Qed.

Lemma not_net_neq (n code : string) : is_net n = false -> net_name code <> n.
Proof.
  intros H E. rewrite <- E, is_net_net_name in H. discriminate.
Qed.

Lemma net_name_inj (a b : string) : net_name a = net_name b -> a = b.
Proof.
  unfold net_name. simpl. intros H. now inversion H.
Qed.

Lemma recompute_nets_keeps (cfg : list (string * (string * string)))
  (df df' : dataframe) (n : string) :
  recompute_nets cfg df = Ok df' ->
  ~ In n (map (fun c => net_name (fst c)) cfg) ->
  get_col df' n = get_col df n.
Proof.
  revert df.
  induction cfg as [| [code [ex im]] rest IH]; simpl; intros df H Hn.
  - now inversion H.
  - assert (Hrest : ~ In n (map (fun c => net_name (fst c)) rest)) by tauto.
    assert (Hcode : net_name code <> n) by tauto.
    destruct (get_col df ex) as [e |]; [| now apply IH].
    destruct (get_col df im) as [i |]; [| now apply IH].
    apply bind_ok in H. destruct H as (xs & _ & H).
    apply bind_ok in H. destruct H as (ys & _ & H).
    rewrite (IH _ H Hrest). now apply get_set_other.
Qed.

Lemma recompute_nets_keeps_raw (cfg : list (string * (string * string)))
  (df df' : dataframe) (n : string) :
  recompute_nets cfg df = Ok df' -> is_net n = false ->
  get_col df' n = get_col df n.
Proof.
  intros H Hn. apply (recompute_nets_keeps cfg); auto.
  intros Hin. apply in_map_iff in Hin. destruct Hin as (c & Hc & _).
  now apply (not_net_neq n (fst c)).
Qed.



Definition raw_columns_not_net (cfg : list (string * (string * string))) : Prop :=
  Forall (fun c => is_net (fst (snd c)) = false /\ is_net (snd (snd c)) = false)
    cfg.


Lemma partner_configs_codes_distinct : NoDup (map fst partner_configs).
Proof.
  simpl. repeat constructor; simpl; intuition discriminate.
Qed.

Lemma partner_configs_raw_not_net : raw_columns_not_net partner_configs.
Proof.
  unfold raw_columns_not_net, partner_configs.
  repeat constructor.
Qed.

Lemma add_calendar_get_other (df df' : dataframe) (n : string) :
  add_calendar df = Ok df' ->
  n <> "date" -> n <> "year" -> n <> "month" -> n <> "day" -> n <> "hour" ->
  get_col df' n = get_col df n.
Proof.
  unfold add_calendar. intros H H1 H2 H3 H4 H5.
  apply bind_ok in H. destruct H as (ts & _ & H).
  inversion H.
  now rewrite !get_set_other by congruence.
Qed.

(** What [load_data] goes through when it returns a table. *)
Lemma load_data_ok (P : Pandas) (raw out : dataframe) :
  load_data P raw = Ok out ->
  exists df1 ts df3 cols,
    resolve_datetime P raw = Ok df1 /\
    datetime_values df1 = Ok ts /\ isna_all ts = false /\
    recompute_nets partner_configs (drop_cols is_net df1) = Ok df3 /\
    filter is_net (columns df3) <> [] /\
    select_floats df3 (filter is_net (columns df3)) = Ok cols /\
    add_calendar
      (set_col df3 "net_total" (SFloat (sum_axis1 (nrows df3) cols))) = Ok out.
Proof.
  unfold load_data. intros H.
  apply bind_ok in H. destruct H as (df1 & H1 & H).
  apply bind_ok in H. destruct H as (ts & Hts & H).
  destruct (isna_all ts) eqn:Hall; [discriminate |].
  apply bind_ok in H. destruct H as (df3 & H3 & H).
  destruct (filter is_net (columns df3)) as [| c cs] eqn:Hnet; [discriminate |].
  apply bind_ok in H. destruct H as (cols & Hcols & H).
  exists df1, ts, df3, cols. rewrite Hnet. repeat split; auto. discriminate.
Qed.




(** A raw table in the combined-timestamp schema: the partner GBR with an
    import carrying a wrong sign, a missing export, an unparsable timestamp
    and two [net_*] columns left by an earlier derivation. *)
Definition sample_raw : dataframe :=
  [ ("datetime", SObject [Some "2020-01-01 00:00:00";
                          Some "2020-01-01 01:00:00"; Some "n/a"]);
    ("FR vers GB (MWh)", SFloat [100; nan; -7.5]%float);
    ("GB vers FR (MWh)", SFloat [-40; 25; 2]%float);
    ("net_GBR", SFloat [140; -25; 1]%float);
    ("net_total", SFloat [1; 2; 3]%float) ].

Definition sample_canonical : dataframe :=
  [ ("datetime", SDatetime [Some 1577836800000000000;
                            Some 1577840400000000000; None]);
    ("FR vers GB (MWh)", SFloat [100; nan; -7.5]%float);
    ("GB vers FR (MWh)", SFloat [-40; 25; 2]%float);
    ("net_GBR", SFloat [60; -25; 5.5]%float);
    ("net_total", SFloat [60; -25; 5.5]%float);
    ("date", SDate [Some (2020, 1, 1); Some (2020, 1, 1); None]);
    ("year", SField [Some 2020; Some 2020; None]);
    ("month", SLabel ["2020-01"; "2020-01"; "NaT"]);
    ("day", SField [Some 1; Some 1; None]);
    ("hour", SField [Some 0; Some 1; None]) ].

Example load_sample_raw : load_data reference sample_raw = Ok sample_canonical.
Proof. vm_compute. reflexivity. Qed.

Example load_sample_raw_stripped :
  load_data reference (drop_cols is_net sample_raw) = Ok sample_canonical.
Proof. vm_compute. reflexivity. Qed.


(** ** Row counts *)

Lemma well_formed_set (n : nat) (df : dataframe) (name : string) (s : series) :
  well_formed n df -> series_len s = n -> well_formed n (set_col df name s).
Proof.
  unfold well_formed. intros Hdf Hs.
  induction df as [| [k s0] rest IH]; simpl.
  - repeat constructor. exact Hs.
  - inversion Hdf; subst.
    destruct (String.eqb k name); constructor; auto.
Qed.

Lemma well_formed_drop (n : nat) (p : string -> bool) (df : dataframe) :
  well_formed n df -> well_formed n (drop_cols p df).
Proof.
  unfold well_formed, drop_cols. rewrite !Forall_forall.
  intros H c Hc. apply filter_In in Hc. now apply H.
Qed.

Lemma well_formed_get (n : nat) (df : dataframe) (name : string) (s : series) :
  well_formed n df -> get_col df name = Some s -> series_len s = n.
Proof.
  unfold well_formed.
  induction df as [| [k s0] rest IH]; simpl; intros Hdf H; [discriminate |].
  inversion Hdf; subst.
  destruct (String.eqb k name); auto.
  now inversion H; subst.
Qed.

Lemma well_formed_nrows (n : nat) (df : dataframe) (name : string) (s : series) :
  well_formed n df -> get_col df name = Some s -> nrows df = n.
Proof.
  destruct df as [| [k s0] rest]; simpl; intros Hdf H; [discriminate |].
  now inversion Hdf.
Qed.

Lemma astype_float_length (P : Pandas) (s : series) (xs : list float) :
  astype_float P s = Ok xs -> List.length xs = series_len s.
Proof.
  destruct s; simpl; intros H; try discriminate;
    try (inversion H; now rewrite ?length_map);
    now apply mapM_length in H.
Qed.

Lemma hour_slot_length (P : Pandas) (s : series) (hours : list Z) :
  hour_slot P s = Ok hours -> List.length hours = series_len s.
Proof.
  unfold hour_slot. intros H.
  apply bind_ok in H. destruct H as (xs & Hxs & H).
  apply bind_ok in H. destruct H as (zs & Hzs & H).
  inversion H. rewrite length_map.
  apply mapM_length in Hzs. rewrite Hzs, length_map.
  now apply (astype_float_length P).
Qed.

Lemma compose_datetime_length (dates : list (option Z)) (hours : list Z)
  (dt : list (option Z)) :
  compose_datetime dates hours = Ok dt ->
  List.length dt = Nat.min (List.length dates) (List.length hours).
Proof.
  unfold compose_datetime. intros H.
  apply mapM_length in H. now rewrite H, length_combine.
Qed.

Lemma resolve_datetime_well_formed (P : Pandas) (n : nat) (raw df : dataframe) :
  well_formed n raw -> resolve_datetime P raw = Ok df -> well_formed n df.
Proof.
  unfold resolve_datetime. intros Hwf H.
  destruct (get_col raw "datetime") as [s |] eqn:Hs.
  - inversion H. apply well_formed_set; auto.
    simpl. rewrite to_datetime_length. now apply (well_formed_get n raw "datetime").
  - destruct (get_col raw "Date") as [d |] eqn:Hd; [| discriminate].
    destruct (get_col raw slot_col) as [h |] eqn:Hh; [| discriminate].
    apply bind_ok in H. destruct H as (hours & Hhours & H).
    apply bind_ok in H. destruct H as (dt & Hdt & H).
    inversion H.
    apply hour_slot_length in Hhours.
    apply compose_datetime_length in Hdt.
    rewrite to_datetime_length, Hhours in Hdt.
    rewrite (well_formed_get n raw "Date" d Hwf Hd) in Hdt.
    rewrite (well_formed_get n raw slot_col h Hwf Hh) in Hdt, Hhours.
    rewrite Nat.min_id in Hdt.
    repeat apply well_formed_set; auto.
    simpl. rewrite to_datetime_length.
    now apply (well_formed_get n raw "Date").
Qed.

Lemma zip_with_length {A B C : Type} (f : A -> B -> C) (xs : list A)
  (ys : list B) :
  List.length (zip_with f xs ys) = Nat.min (List.length xs) (List.length ys).
Proof.
  revert ys.
  induction xs as [| x xs IH]; intros [| y ys]; simpl; auto.
Qed.

Lemma abs_fillna_length (s : series) (xs : list float) :
  abs_fillna s = Ok xs -> List.length xs = series_len s.
Proof.
  destruct s; simpl; intros H; try discriminate.
  inversion H. apply length_map.
Qed.

Lemma recompute_nets_well_formed (n : nat)
  (cfg : list (string * (string * string))) (df df' : dataframe) :
  well_formed n df -> recompute_nets cfg df = Ok df' -> well_formed n df'.
Proof.
  revert df.
  induction cfg as [| [code [ex im]] rest IH]; simpl; intros df Hwf H.
  - now inversion H; subst.
  - destruct (get_col df ex) as [e |] eqn:He; [| now apply (IH df)].
    destruct (get_col df im) as [i |] eqn:Hi; [| now apply (IH df)].
    apply bind_ok in H. destruct H as (xs & Hxs & H).
    apply bind_ok in H. destruct H as (ys & Hys & H).
    apply (IH _) in H; auto.
    apply well_formed_set; auto.
    simpl. rewrite zip_with_length.
    rewrite (abs_fillna_length _ _ Hxs), (abs_fillna_length _ _ Hys).
    rewrite (well_formed_get n df ex e Hwf He).
    rewrite (well_formed_get n df im i Hwf Hi).
    apply Nat.min_id.
Qed.

Lemma datetime_values_get (df : dataframe) (ts : list (option Z)) :
  datetime_values df = Ok ts <-> get_col df "datetime" = Some (SDatetime ts).
Proof.
  unfold datetime_values.
  destruct (get_col df "datetime") as [[] |]; split; intros H;
    try discriminate; now inversion H.
Qed.

(** ** The total (C2) *)

(** A partner whose export and import columns are both in the table. *)
Definition both_present (df : dataframe) (c : string * (string * string)) : bool :=
  has_col df (fst (snd c)) && has_col df (snd (snd c)).

(** The [net_*] columns the partner loop produces on a table: one per
    configured partner with both raw columns, in configuration order. *)
Definition produced_net_columns (df : dataframe) : list string :=
  map (fun c => net_name (fst c)) (filter (both_present df) partner_configs).

Lemma has_col_ext (a b : dataframe) (n : string) :
  get_col a n = get_col b n -> has_col a n = has_col b n.
Proof.
  unfold has_col. now intros ->.
Qed.

Lemma recompute_nets_columns (cfg : list (string * (string * string)))
  (df df' : dataframe) :
  NoDup (map fst cfg) -> raw_columns_not_net cfg ->
  (forall c, In c cfg -> get_col df (net_name (fst c)) = None) ->
  recompute_nets cfg df = Ok df' ->
  columns df'
  = (columns df ++ map (fun c => net_name (fst c)) (filter (both_present df) cfg))%list.
Proof.
  revert df.
  induction cfg as [| [c0 [ex0 im0]] rest IH]; simpl;
    intros df Hnd Hraw Hfresh H.
  - inversion H. now rewrite app_nil_r.
  - inversion Hnd as [| ? ? Hc0 Hnd']; subst.
    inversion Hraw as [| ? ? _ Hraw']; subst.
    unfold both_present at 1, has_col. simpl.
    destruct (get_col df ex0) as [e |]; simpl; [| now apply IH; auto].
    destruct (get_col df im0) as [i |]; simpl; [| now apply IH; auto].
    apply bind_ok in H. destruct H as (xs & _ & H).
    apply bind_ok in H. destruct H as (ys & _ & H).
    apply IH in H; auto.
    + rewrite H, columns_set_new by (apply (Hfresh (c0, (ex0, im0))); auto).
      rewrite <- app_assoc. simpl. do 3 f_equal.
      apply filter_ext_in. intros [c [ex im]] Hc.
      rewrite Forall_forall in Hraw'. destruct (Hraw' _ Hc) as [Hex Him].
      unfold both_present. simpl in *.
      f_equal; apply has_col_ext; apply get_set_other; now apply not_net_neq.
    + intros c Hc. rewrite get_set_other; auto.
      intros E. apply net_name_inj in E. apply Hc0.
      rewrite E. now apply in_map.
Qed.

Lemma filter_is_net_drop (df : dataframe) :
  filter is_net (columns (drop_cols is_net df)) = [].
Proof.
  induction df as [| [n s] rest IH]; simpl; auto.
  destruct (is_net n) eqn:E; simpl; auto.
  now rewrite E.
Qed.

Lemma filter_is_net_names (cs : list (string * (string * string))) :
  filter is_net (map (fun c => net_name (fst c)) cs)
  = map (fun c => net_name (fst c)) cs.
Proof.
  induction cs as [| c cs IH]; simpl; auto.
  now rewrite is_net_net_name, IH.
Qed.

Lemma both_present_resolved (P : Pandas) (raw df1 : dataframe) :
  resolve_datetime P raw = Ok df1 ->
  filter (both_present (drop_cols is_net df1)) partner_configs
  = filter (both_present raw) partner_configs.
Proof.
  intros H1. apply filter_ext_in. intros c Hc.
  assert (Hget : forall n, In n [fst (snd c); snd (snd c)] ->
            get_col (drop_cols is_net df1) n = get_col raw n).
  { intros n Hn.
    assert (Hnames : is_net n = false /\ n <> "datetime" /\ n <> "Date"
                     /\ n <> "hour").
    { simpl in Hc, Hn.
      repeat (destruct Hc as [Hc | Hc];
              [subst c; simpl in Hn;
               destruct Hn as [Hn | [Hn | []]]; subst n;
               repeat split; try reflexivity; discriminate |]).
      contradiction. }
    destruct Hnames as (N1 & N2 & N3 & N4).
    rewrite get_drop_keep by auto.
    now apply (resolve_datetime_get_other P raw df1). }
  unfold both_present.
  f_equal; apply has_col_ext; apply Hget; simpl; auto.
Qed.

Lemma net_columns_after_recompute (P : Pandas) (raw df1 df3 : dataframe) :
  resolve_datetime P raw = Ok df1 ->
  recompute_nets partner_configs (drop_cols is_net df1) = Ok df3 ->
  filter is_net (columns df3) = produced_net_columns raw.
Proof.
  intros H1 H3.
  apply recompute_nets_columns in H3.
  - rewrite H3, filter_app, filter_is_net_drop, filter_is_net_names.
    cbn [app]. unfold produced_net_columns.
    now rewrite (both_present_resolved P raw df1).
  - apply partner_configs_codes_distinct.
  - apply partner_configs_raw_not_net.
  - intros c _. apply get_drop_gone, is_net_net_name.
Qed.

Lemma filter_is_net_set_other (df : dataframe) (n : string) (s : series) :
  is_net n = false ->
  filter is_net (columns (set_col df n s)) = filter is_net (columns df).
Proof.
  intros Hn.
  induction df as [| [k s0] rest IH]; simpl.
  - now rewrite Hn.
  - destruct (String.eqb k n); simpl; [reflexivity |].
    now rewrite IH.
Qed.

Lemma select_floats_ext (a b : dataframe) (names : list string) :
  (forall n, In n names -> get_col a n = get_col b n) ->
  select_floats a names = select_floats b names.
Proof.
  unfold select_floats.
  induction names as [| n names IH]; simpl; intros H; auto.
  rewrite (H n) by auto. rewrite IH; auto.
Qed.

Lemma sum_axis1_length (n : nat) (cols : list (list float)) :
  List.length (sum_axis1 n cols) = n.
Proof.
  unfold sum_axis1. now rewrite length_map, length_seq.
Qed.


Lemma load_data_net_columns (P : Pandas) (raw out : dataframe) :
  load_data P raw = Ok out ->
  filter is_net (columns out) = (produced_net_columns raw ++ ["net_total"])%list.
Proof.
  intros Hload.
  apply load_data_ok in Hload.
  destruct Hload as (df1 & ts & df3 & cols & H1 & _ & _ & H3 & _ & _ & Hcal).
  pose proof (net_columns_after_recompute P raw df1 df3 H1 H3) as Hnames.
  apply bind_ok in Hcal. destruct Hcal as (ts' & _ & Hcal). inversion Hcal.
  rewrite !filter_is_net_set_other by reflexivity.
  rewrite columns_set_new, filter_app, Hnames; [reflexivity |].
  rewrite (recompute_nets_keeps _ _ _ _ H3).
  - now apply get_drop_gone.
  - simpl. intuition discriminate.
Qed.




(** ** Load failures (C7, C8) *)

(** The timestamps the resolution step leaves in the [datetime] column. *)
Definition resolved_timestamps (P : Pandas) (raw : dataframe)
  : result (list (option Z)) :=
  df <- resolve_datetime P raw ;; datetime_values df.

Lemma isna_all_Forall (ts : list (option Z)) :
  isna_all ts = true <-> Forall (fun t => t = None) ts.
Proof.
  unfold isna_all. rewrite forallb_forall, Forall_forall.
  split; intros H t Ht; specialize (H t Ht); destruct t; auto; discriminate.
Qed.

(** C7. When a timestamp schema is present and resolution leaves every row's
    timestamp missing, the load raises the all-NaT error, whatever the number
    of rows. *)
Theorem all_missing_timestamps_fail (P : Pandas) (raw : dataframe)
  (ts : list (option Z)) :
  resolved_timestamps P raw = Ok ts ->
  Forall (fun t => t = None) ts ->
  load_data P raw = Err AllNaTError.
Proof.
  unfold resolved_timestamps, load_data. intros Hres Hall.
  apply bind_ok in Hres. destruct Hres as (df & Hdf & Hts).
  rewrite Hdf. simpl. rewrite Hts. simpl.
  apply isna_all_Forall in Hall. now rewrite Hall.
Qed.

(** Three rows, a combined timestamp column that pandas cannot parse. *)
Definition sample_unparsable : dataframe :=
  [ ("datetime", SObject [Some "n/a"; None; Some "yesterday"]);
    ("FR vers GB (MWh)", SFloat [100; 20; 3]%float);
    ("GB vers FR (MWh)", SFloat [40; 25; 2]%float) ].

Lemma all_missing_timestamps_witness :
  load_data reference sample_unparsable = Err AllNaTError.
Proof.
  apply (all_missing_timestamps_fail reference sample_unparsable
           [None; None; None]).
  - reflexivity.
  - repeat constructor.
Defined.

Lemma recompute_nets_none_present (cfg : list (string * (string * string)))
  (df : dataframe) :
  filter (both_present df) cfg = [] -> recompute_nets cfg df = Ok df.
Proof.
  induction cfg as [| [code [ex im]] rest IH]; simpl; auto.
  unfold both_present at 1, has_col. simpl.
  destruct (get_col df ex); simpl; auto.
  destruct (get_col df im); simpl; auto.
  discriminate.
Qed.

(** C8. When no configured partner has both its export and its import column
    in the raw table, the load never returns a table; once the timestamp
    checks have passed, the partner loop produces no [net_*] column and the
    load raises the no-net-columns error. *)
Theorem no_partner_columns_fail (P : Pandas) (raw : dataframe) :
  filter (both_present raw) partner_configs = [] ->
  (exists e, load_data P raw = Err e) /\
  (forall ts, resolved_timestamps P raw = Ok ts -> isna_all ts = false ->
              load_data P raw = Err NoNetColumnsError).
Proof.
  intros Hnone.
  assert (Hmain : forall df ts, resolve_datetime P raw = Ok df ->
            datetime_values df = Ok ts -> isna_all ts = false ->
            load_data P raw = Err NoNetColumnsError).
  { intros df ts Hdf Hts Hall. unfold load_data.
    rewrite Hdf. cbn [bind]. rewrite Hts. cbn [bind]. rewrite Hall.
    rewrite recompute_nets_none_present
      by now rewrite (both_present_resolved P raw df).
    cbn [bind]. now rewrite filter_is_net_drop. }
  split.
  - destruct (resolve_datetime P raw) as [df | e] eqn:Hdf.
    + destruct (datetime_values df) as [ts | e] eqn:Hts.
      * destruct (isna_all ts) eqn:Hall.
        -- exists AllNaTError. unfold load_data.
           rewrite Hdf. simpl. rewrite Hts. simpl. now rewrite Hall.
        -- exists NoNetColumnsError. now apply (Hmain df ts).
      * exists e. unfold load_data. rewrite Hdf. simpl. now rewrite Hts.
    + exists e. unfold load_data. now rewrite Hdf.
  - unfold resolved_timestamps. intros ts Hres Hall.
    apply bind_ok in Hres. destruct Hres as (df & Hdf & Hts).
    now apply (Hmain df ts).
Qed.

(** A table with timestamps and only the export half of the GBR pair. *)
Definition sample_no_partner : dataframe :=
  [ ("datetime", SObject [Some "2020-01-01 00:00:00"; Some "2020-01-01 01:00:00"]);
    ("FR vers GB (MWh)", SFloat [100; 20]%float);
    ("net_GBR", SFloat [60; -5]%float) ].

Lemma no_partner_columns_witness :
  (exists e, load_data reference sample_no_partner = Err e) /\
  (forall ts, resolved_timestamps reference sample_no_partner = Ok ts ->
              isna_all ts = false ->
              load_data reference sample_no_partner = Err NoNetColumnsError).
Proof.
  apply (no_partner_columns_fail reference sample_no_partner).
  reflexivity.
Defined.

Example load_sample_no_partner :
  load_data reference sample_no_partner = Err NoNetColumnsError.
Proof. vm_compute. reflexivity. Qed.

(** ** Rows are kept (C10) *)

(** One cell of a table, with its dtype. *)
Inductive cell : Type :=
| CFloat (x : float)
| CText (t : option string)
| CTime (t : option Z)
| CInt (z : Z)
| CDate (d : option date)
| CField (z : option Z)
| CLabel (t : string).

Definition series_nth (s : series) (i : nat) : option cell :=
  match s with
  | SFloat xs => option_map CFloat (nth_error xs i)
  | SObject xs => option_map CText (nth_error xs i)
  | SDatetime xs => option_map CTime (nth_error xs i)
  | SInt xs => option_map CInt (nth_error xs i)
  | SDate xs => option_map CDate (nth_error xs i)
  | SField xs => option_map CField (nth_error xs i)
  | SLabel xs => option_map CLabel (nth_error xs i)
  end.

(** [df[name].iloc[i]]. *)
Definition cell_at (df : dataframe) (name : string) (i : nat) : option cell :=
  match get_col df name with
  | Some s => series_nth s i
  | None => None
  end.

(** C10. A successful load keeps every row of the raw table: every column of
    the canonical table has as many cells as the raw table has rows, and a row
    whose timestamp is missing is still there, with the missing marker in
    [datetime] and in the calendar fields derived from it. *)
Theorem load_data_keeps_every_row (P : Pandas) (n : nat) (raw out : dataframe) :
  well_formed n raw ->
  load_data P raw = Ok out ->
  well_formed n out /\ nrows out = n /\
  forall i, cell_at out "datetime" i = Some (CTime None) ->
    cell_at out "date" i = Some (CDate None) /\
    cell_at out "year" i = Some (CField None) /\
    cell_at out "month" i = Some (CLabel "NaT") /\
    cell_at out "day" i = Some (CField None) /\
    cell_at out "hour" i = Some (CField None).
Proof.
  intros Hwf Hload.
  apply load_data_ok in Hload.
  destruct Hload as (df1 & ts & df3 & cols & H1 & Hts & _ & H3 & _ & _ & Hcal).
  pose proof (resolve_datetime_well_formed P n raw df1 Hwf H1) as Hwf1.
  pose proof (recompute_nets_well_formed n _ _ _
                (well_formed_drop n is_net df1 Hwf1) H3) as Hwf3.
  assert (Hdt3 : get_col df3 "datetime" = Some (SDatetime ts)).
  { rewrite (recompute_nets_keeps_raw _ _ _ _ H3) by reflexivity.
    rewrite get_drop_keep by reflexivity. now apply datetime_values_get. }
  set (df4 := set_col df3 "net_total" (SFloat (sum_axis1 (nrows df3) cols))) in *.
  assert (Hwf4 : well_formed n df4).
  { apply well_formed_set; auto. simpl. rewrite sum_axis1_length.
    now apply (well_formed_nrows n df3 "datetime" (SDatetime ts)). }
  assert (Hdt4 : get_col df4 "datetime" = Some (SDatetime ts)).
  { unfold df4. now rewrite get_set_other by discriminate. }
  assert (Hlen : List.length ts = n).
  { apply (well_formed_get n df4 "datetime" (SDatetime ts) Hwf4 Hdt4). }
  unfold add_calendar in Hcal.
  apply datetime_values_get in Hdt4. rewrite Hdt4 in Hcal. cbn [bind] in Hcal.
  injection Hcal as Hout.
  assert (Hwf_out : well_formed n out).
  { subst out.
    do 5 (apply well_formed_set; [| simpl; rewrite length_map; exact Hlen]).
    exact Hwf4. }
  split; [exact Hwf_out | split].
  - apply (well_formed_nrows n out "hour"
             (SField (map (option_map dt_hour) ts)) Hwf_out).
    subst out. apply get_set_same.
  - intros i. unfold cell_at. subst out.
    rewrite !get_set_same.
    repeat (rewrite get_set_other by discriminate; rewrite ?get_set_same).
    apply datetime_values_get in Hdt4. rewrite Hdt4. simpl.
    rewrite !nth_error_map.
    destruct (nth_error ts i) as [[t |] |]; simpl; intros H;
      try discriminate; repeat split; reflexivity.
Qed.

Lemma load_data_keeps_every_row_witness :
  well_formed 3 sample_canonical /\ nrows sample_canonical = 3%nat /\
  forall i, cell_at sample_canonical "datetime" i = Some (CTime None) ->
    cell_at sample_canonical "date" i = Some (CDate None) /\
    cell_at sample_canonical "year" i = Some (CField None) /\
    cell_at sample_canonical "month" i = Some (CLabel "NaT") /\
    cell_at sample_canonical "day" i = Some (CField None) /\
    cell_at sample_canonical "hour" i = Some (CField None).
Proof.
  apply (load_data_keeps_every_row reference 3 sample_raw sample_canonical).
  - repeat constructor.
  - vm_compute. reflexivity.
Defined.

(** ** The hour slot (C6) *)





Lemma clip_range (lower upper z : Z) :
  lower <= upper -> lower <= clip lower upper z <= upper.
Proof.
  unfold clip. intros H.
  destruct (z <? lower) eqn:E1; [lia |].
  destruct (upper <? z) eqn:E2; lia.
Qed.



Lemma mapM_error {A B : Type} (f : A -> result B) (l : list A) (a : A)
  (e : error) :
  (forall a' e', f a' = Err e' -> e' = e) ->
  In a l -> f a = Err e -> mapM f l = Err e.
Proof.
  intros Hone Hin Ha.
  induction l as [| b l IH]; simpl; [contradiction |].
  destruct (f b) as [v | e'] eqn:Hb; simpl.
  - destruct Hin as [-> | Hin]; [congruence |].
    now rewrite IH.
  - now rewrite (Hone b e' Hb).
Qed.

Lemma float_of_cell_error (P : Pandas) (c : option string) (e : error) :
  float_of_cell P c = Err e -> e = ValueError.
Proof.
  destruct c as [t |]; simpl; [| discriminate].
  destruct (float_of_text P t); [discriminate |].
  now inversion 1.
Qed.

(** One composed timestamp: the date plus the hour, [NaT] staying [NaT]. *)
Definition date_plus_hour (d : option Z) (h : Z) : option Z :=
  option_map (fun t => t + h * ns_per_hour) d.

Lemma compose_datetime_values (dates : list (option Z)) (hours : list Z)
  (ts : list (option Z)) :
  compose_datetime dates hours = Ok ts ->
  ts = map (fun p => date_plus_hour (fst p) (snd p)) (combine dates hours).
Proof.
  unfold compose_datetime.
  revert ts.
  induction (combine dates hours) as [| [d h] l IH]; simpl; intros ts H.
  - now inversion H.
  - apply bind_ok in H. destruct H as (t & Ht & H).
    apply bind_ok in H. destruct H as (ts' & Hts' & H).
    inversion H. f_equal; auto.
    destruct d as [d |]; simpl in *; [| now inversion Ht].
    destruct ((int64_min <? d + h * ns_per_hour)
              && (d + h * ns_per_hour <=? int64_max)); now inversion Ht.
Qed.

Lemma resolved_timestamps_date_schema (P : Pandas) (raw : dataframe)
  (d h : series) :
  get_col raw "datetime" = None ->
  get_col raw "Date" = Some d -> get_col raw slot_col = Some h ->
  resolved_timestamps P raw
  = (hours <- hour_slot P h ;; compose_datetime (to_datetime P d) hours).
Proof.
  unfold resolved_timestamps, resolve_datetime. intros -> -> ->.
  destruct (hour_slot P h) as [hours | e]; [| reflexivity].
  cbn [bind].
  destruct (compose_datetime (to_datetime P d) hours) as [ts | e];
    [| reflexivity].
  cbn [bind]. unfold datetime_values. now rewrite get_set_same.
Qed.


(** A table in the date plus hour-slot schema: slots 5, missing, 30.5, -2. *)
Definition sample_slots : dataframe :=
  [ ("Date", SObject [Some "2020-01-01"; Some "2020-01-01";
                      Some "2020-01-02"; Some "2020-01-02"]);
    (slot_col, SFloat [5; nan; 30.5; -2]%float);
    ("FR vers GB (MWh)", SFloat [100; 20; 3; 4]%float);
    ("GB vers FR (MWh)", SFloat [-40; 25; 2; 1]%float) ].

Example hour_slot_sample :
  hour_slot reference (SFloat [5; nan; 30.5; -2]%float) = Ok [5; 0; 23; 0].
Proof. vm_compute. reflexivity. Qed.




(** ** The two timestamp schemas (C5) *)




Lemma load_data_calendar (P : Pandas) (raw out : dataframe) :
  load_data P raw = Ok out ->
  exists ts,
    resolved_timestamps P raw = Ok ts /\
    get_col out "datetime" = Some (SDatetime ts) /\
    get_col out "date" = Some (SDate (map (option_map dt_date) ts)) /\
    get_col out "year" = Some (SField (map (option_map dt_year) ts)) /\
    get_col out "month" = Some (SLabel (map month_label ts)) /\
    get_col out "day" = Some (SField (map (option_map dt_day) ts)) /\
    get_col out "hour" = Some (SField (map (option_map dt_hour) ts)).
Proof.
  intros Hload.
  apply load_data_ok in Hload.
  destruct Hload as (df1 & ts & df3 & cols & H1 & Hts & _ & H3 & _ & _ & Hcal).
  exists ts.
  assert (Hdt3 : get_col df3 "datetime" = Some (SDatetime ts)).
  { rewrite (recompute_nets_keeps_raw _ _ _ _ H3) by reflexivity.
    rewrite get_drop_keep by reflexivity. now apply datetime_values_get. }
  assert (Hdt4 : datetime_values
            (set_col df3 "net_total" (SFloat (sum_axis1 (nrows df3) cols)))
            = Ok ts).
  { apply datetime_values_get. now rewrite get_set_other by discriminate. }
  unfold add_calendar in Hcal. rewrite Hdt4 in Hcal. cbn [bind] in Hcal.
  injection Hcal as Hout.
  split.
  { unfold resolved_timestamps. now rewrite H1. }
  subst out.
  repeat split;
    repeat (rewrite get_set_other by discriminate);
    rewrite ?get_set_same; auto.
Qed.



Lemma net_column_absent (P : Pandas) (raw out : dataframe) (n : string) :
  load_data P raw = Ok out -> is_net n = true ->
  ~ In n (produced_net_columns raw ++ ["net_total"])%list ->
  get_col out n = None.
Proof.
  intros Hload Hnet Hnot.
  apply load_data_net_columns in Hload.
  apply get_col_in_columns. intros Hin. apply Hnot.
  rewrite <- Hload. apply filter_In. auto.
Qed.




Definition sample_date_slot : dataframe :=
  [ ("Date", SObject [Some "2020-01-01"; Some "2020-01-02"]);
    (slot_col, SFloat [5; 0]%float);
    ("FR vers GB (MWh)", SFloat [100; 20]%float);
    ("GB vers FR (MWh)", SFloat [-40; 25]%float) ].


Definition canonical_date_slot : dataframe :=
  [ ("Date", SDatetime [Some 1577836800000000000; Some 1577923200000000000]);
    (slot_col, SFloat [5; 0]%float);
    ("FR vers GB (MWh)", SFloat [100; 20]%float);
    ("GB vers FR (MWh)", SFloat [-40; 25]%float);
    ("hour", SField [Some 5; Some 0]);
    ("datetime", SDatetime [Some 1577854800000000000; Some 1577923200000000000]);
    ("net_GBR", SFloat [60; -5]%float);
    ("net_total", SFloat [60; -5]%float);
    ("date", SDate [Some (2020, 1, 1); Some (2020, 1, 2)]);
    ("year", SField [Some 2020; Some 2020]);
    ("month", SLabel ["2020-01"; "2020-01"]);
    ("day", SField [Some 1; Some 2]) ].






(** ** Aggregation (C4) *)

#[local] Set Warnings "-inexact-float".


Definition canonical_decimal : dataframe :=
  [ ("datetime", SDatetime [Some 1577919600000000000; Some 1577923200000000000;
                            Some 1577926800000000000]);
    ("FR vers GB (MWh)", SFloat [0.1; 0.2; 0.3]%float);
    ("GB vers FR (MWh)", SFloat [0; 0; 0]%float);
    ("net_GBR", SFloat [0.1; 0.2; 0.3]%float);
    ("net_total", SFloat [0.1; 0.2; 0.3]%float);
    ("date", SDate [Some (2020, 1, 1); Some (2020, 1, 2); Some (2020, 1, 2)]);
    ("year", SField [Some 2020; Some 2020; Some 2020]);
    ("month", SLabel ["2020-01"; "2020-01"; "2020-01"]);
    ("day", SField [Some 1; Some 2; Some 2]);
    ("hour", SField [Some 23; Some 0; Some 1]) ].

Definition daily_decimal : dataframe :=
  [ ("datetime", SDatetime [Some 1577836800000000000; Some 1577923200000000000]);
    ("FR vers GB (MWh)", SFloat [0.1; 0.5]%float);
    ("GB vers FR (MWh)", SFloat [0; 0]%float);
    ("net_GBR", SFloat [0.1; 0.5]%float);
    ("net_total", SFloat [0.1; 0.5]%float);
    ("date", SDate [Some (2020, 1, 1); Some (2020, 1, 2)]);
    ("month", SLabel ["2020-01"; "2020-01"]);
    ("year", SField [Some 2020; Some 2020]) ].




Section Partition.

Context {A : Type} (key : A -> Z).






End Partition.

Lemma fold_min_le (l : list Z) (a : Z) :
  fold_left Z.min l a <= a /\ forall x, In x l -> fold_left Z.min l a <= x.
Proof.
  revert a.
  induction l as [| y l IH]; simpl; intros a.
  - split; [lia | contradiction].
  - destruct (IH (Z.min a y)) as [H1 H2]. split; [lia |].
    intros x [-> | Hx]; [lia | auto].
Qed.

Lemma fold_max_ge (l : list Z) (a : Z) :
  a <= fold_left Z.max l a /\ forall x, In x l -> x <= fold_left Z.max l a.
Proof.
  revert a.
  induction l as [| y l IH]; simpl; intros a.
  - split; [lia | contradiction].
  - destruct (IH (Z.max a y)) as [H1 H2]. split; [lia |].
    intros x [-> | Hx]; [lia | auto].
Qed.

Lemma bucket_range_covers (keys : list Z) (k : Z) :
  In k keys -> In k (bucket_range keys).
Proof.
  destruct keys as [| k0 keys]; simpl; [contradiction |].
  intros Hin.
  destruct (fold_min_le keys k0) as [Hlo0 Hlo].
  destruct (fold_max_ge keys k0) as [Hhi0 Hhi].
  set (lo := fold_left Z.min keys k0) in *.
  set (hi := fold_left Z.max keys k0) in *.
  assert (Hk : lo <= k <= hi).
  { destruct Hin as [<- | Hin]; [lia |].
    split; [apply Hlo | apply Hhi]; auto. }
  apply in_map_iff. exists (Z.to_nat (k - lo)). split; [lia |].
  apply in_seq. lia.
Qed.








(** ** The formatter's thresholds (C9) *)

Section FloatOrder.

Variables (m1 m2 : positive) (e1 e2 : Z).

Let k1 := S754_finite false m1 e1.
Let k2 := S754_finite false m2 e2.

Lemma sf_lt_not_ge (a : spec_float) :
  SFltb (SFabs a) k1 = true -> SFleb k1 (SFabs a) = false.
Proof.
  unfold SFltb, SFleb, k1.
  destruct a as [s | s | | s m e]; simpl; try discriminate; auto.
  rewrite (Z.compare_antisym e e1).
  assert (Hc : Pos.compare_cont Eq m1 m = CompOpp (Pos.compare_cont Eq m m1))
    by (symmetry; apply (Pos.compare_cont_antisym m m1 Eq)).
  rewrite Hc.
  destruct (e ?= e1); simpl; try discriminate; auto.
  destruct (Pos.compare_cont Eq m m1); simpl; try discriminate; auto.
Qed.

Lemma sf_lt_not_nan (a : spec_float) :
  SFltb (SFabs a) k1 = true -> SFeqb a a = true.
Proof.
  unfold SFltb, SFeqb, k1.
  destruct a as [[] | [] | | [] m e]; simpl; try discriminate; auto;
    intros _; rewrite Z.compare_refl, Pos.compare_cont_refl; reflexivity.
Qed.

Lemma sf_ge_not_nan (a : spec_float) :
  SFleb k1 (SFabs a) = true -> SFeqb a a = true.
Proof.
  unfold SFleb, SFeqb, k1.
  destruct a as [[] | [] | | [] m e]; simpl; try discriminate; auto;
    intros _; rewrite Z.compare_refl, Pos.compare_cont_refl; reflexivity.
Qed.

Lemma sf_lt_trans (a : spec_float) :
  e1 < e2 -> SFltb (SFabs a) k1 = true -> SFltb (SFabs a) k2 = true.
Proof.
  unfold SFltb, k1, k2. intros He.
  destruct a as [s | s | | s m e]; simpl; try discriminate; auto.
  destruct (Z.compare_spec e e1) as [-> | Hlt | Hgt]; try discriminate;
    intros _.
  - now rewrite (proj2 (Z.compare_lt_iff e1 e2) He).
  - now rewrite (proj2 (Z.compare_lt_iff e e2)) by lia.
Qed.

End FloatOrder.

Lemma thousand_repr : Prim2SF 1e3 = S754_finite false 8796093022208000 (-43).
Proof. vm_compute. reflexivity. Qed.

Lemma million_repr : Prim2SF 1e6 = S754_finite false 8589934592000000 (-33).
Proof. vm_compute. reflexivity. Qed.

Lemma is_nan_spec (x : float) :
  PrimFloat.is_nan x = negb (SFeqb (Prim2SF x) (Prim2SF x)).
Proof.
  unfold PrimFloat.is_nan. now rewrite eqb_spec.
Qed.

Lemma below_thousand (x : float) :
  (PrimFloat.abs x <? 1e3)%float = true ->
  PrimFloat.is_nan x = false /\
  (1e6 <=? PrimFloat.abs x)%float = false /\
  (1e3 <=? PrimFloat.abs x)%float = false.
Proof.
  rewrite ltb_spec, !leb_spec, is_nan_spec, abs_spec.
  rewrite thousand_repr, million_repr. intros H.
  repeat split.
  - now rewrite (sf_lt_not_nan _ _ _ H).
  - apply sf_lt_not_ge.
    apply (sf_lt_trans 8796093022208000 8589934592000000 (-43) (-33));
      [lia | exact H].
  - now apply sf_lt_not_ge.
Qed.

Lemma below_million (x : float) :
  (PrimFloat.abs x <? 1e6)%float = true ->
  PrimFloat.is_nan x = false /\ (1e6 <=? PrimFloat.abs x)%float = false.
Proof.
  rewrite ltb_spec, !leb_spec, is_nan_spec, abs_spec.
  rewrite million_repr. intros H.
  split.
  - now rewrite (sf_lt_not_nan _ _ _ H).
  - now apply sf_lt_not_ge.
Qed.

Lemma at_least_million (x : float) :
  (1e6 <=? PrimFloat.abs x)%float = true -> PrimFloat.is_nan x = false.
Proof.
  rewrite leb_spec, is_nan_spec, abs_spec, million_repr. intros H.
  now rewrite (sf_ge_not_nan _ _ _ H).
Qed.

(** C9. [format_mwh] follows the scale thresholds on the magnitude of its
    input: below 10^3 the value itself with no decimal and the base unit; from
    10^3 and below 10^6 the value divided by 10^3 with one decimal; from 10^6
    the value divided by 10^6 with one decimal; the placeholder for a missing
    value.  So 999 is in base units, 1000 and 999999 are in the 10^3 scale and
    1000000 is in the 10^6 scale. *)
Theorem format_mwh_thresholds (x : float) :
  (PrimFloat.is_nan x = true -> format_mwh x = placeholder) /\
  ((PrimFloat.abs x <? 1e3)%float = true ->
   format_mwh x = replace_commas (format_fixed 0 x ++ " MWh")) /\
  ((1e3 <=? PrimFloat.abs x)%float = true ->
   (PrimFloat.abs x <? 1e6)%float = true ->
   format_mwh x = replace_commas (format_fixed 1 (x / 1e3)%float ++ " GWh")) /\
  ((1e6 <=? PrimFloat.abs x)%float = true ->
   format_mwh x = replace_commas (format_fixed 1 (x / 1e6)%float ++ " TWh")) /\
  format_mwh 999 = "999 MWh" /\
  format_mwh 1000 = "1.0 GWh" /\
  format_mwh 999999 = "1 000.0 GWh" /\
  format_mwh 1000000 = "1.0 TWh" /\
  format_mwh nan = placeholder.
Proof.
  unfold format_mwh.
  split; [| split; [| split; [| split]]].
  - now intros ->.
  - intros H. destruct (below_thousand x H) as (-> & -> & ->). reflexivity.
  - intros H3 H6. destruct (below_million x H6) as (-> & ->).
    now rewrite H3.
  - intros H. now rewrite (at_least_million x H), H.
  - repeat split; vm_compute; reflexivity.
Qed.

Example format_mwh_negative : format_mwh (-2500) = "-2.5 GWh".
Proof. vm_compute. reflexivity. Qed.

Example format_mwh_half_even : format_mwh 1250 = "1.2 GWh".
Proof. vm_compute. reflexivity. Qed.

Example format_mwh_grouping : format_mwh 12345678901 = "12 345.7 TWh".
Proof. vm_compute. reflexivity. Qed.

(** * Further properties of the reconstructor *)

(** ** Which error, when *)

Lemma mapM_err {A B : Type} (f : A -> result B) (l : list A) (e : error) :
  mapM f l = Err e -> exists a, In a l /\ f a = Err e.
Proof.
  induction l as [| a l IH]; simpl; [discriminate |].
  destruct (f a) as [b | e'] eqn:Ha; simpl.
  - destruct (mapM f l) as [bs | e'']; simpl; [discriminate |].
    intros H. destruct (IH H) as (a' & Hin & Ha'). eauto.
  - intros H. inversion H. subst e'. eauto.
Qed.

Lemma hour_slot_errors (P : Pandas) (h : series) (e : error) :
  hour_slot P h = Err e -> e = ValueError \/ e = TypeError.
Proof.
  unfold hour_slot.
  destruct (astype_float P h) as [xs | e'] eqn:Hxs; simpl.
  - destruct (mapM (astype_int P) (map fillna0 xs)) as [zs | e''] eqn:Hzs;
      simpl; [discriminate |].
    intros H. inversion H. subst e''.
    apply mapM_err in Hzs. destruct Hzs as (x & _ & Hx).
    unfold astype_int in Hx.
    destruct (trunc_float x) as [z |].
    + destruct ((int64_min <=? z) && (z <=? int64_max)); discriminate.
    + inversion Hx. now left.
  - intros H. inversion H. subst e'.
    destruct h; simpl in Hxs; try discriminate;
      try (inversion Hxs; now right);
      apply mapM_err in Hxs; destruct Hxs as (c & _ & Hc);
      first [ apply float_of_cell_error in Hc
            | apply (float_of_cell_error P (Some c)) in Hc ];
      now left.
Qed.

Lemma compose_datetime_errors (dates : list (option Z)) (hours : list Z)
  (e : error) :
  compose_datetime dates hours = Err e -> e = OverflowError.
Proof.
  unfold compose_datetime. intros H.
  apply mapM_err in H. destruct H as ([d h] & _ & H).
  destruct d as [t |]; simpl in H; [| discriminate].
  destruct ((int64_min <? t + h * ns_per_hour)
            && (t + h * ns_per_hour <=? int64_max)); [discriminate |].
  now inversion H.
Qed.

(** The table has one of the two timestamp schemas. *)
Definition has_schema (raw : dataframe) : bool :=
  has_col raw "datetime" || (has_col raw "Date" && has_col raw slot_col).

Lemma resolve_datetime_errors (P : Pandas) (raw : dataframe) (e : error) :
  resolve_datetime P raw = Err e ->
  (e = SchemaError /\ has_schema raw = false) \/
  (has_col raw "datetime" = false /\ has_schema raw = true /\
   (e = ValueError \/ e = TypeError \/ e = OverflowError)).
Proof.
  unfold resolve_datetime, has_schema, has_col.
  destruct (get_col raw "datetime") as [s |]; [discriminate |].
  destruct (get_col raw "Date") as [d |]; simpl.
  - destruct (get_col raw slot_col) as [h |]; simpl.
    + destruct (hour_slot P h) as [hours | e'] eqn:Hh; simpl.
      * destruct (compose_datetime (to_datetime P d) hours) as [dt | e'']
          eqn:Hdt; simpl; [discriminate |].
        intros H. inversion H. subst e''.
        apply compose_datetime_errors in Hdt. right. auto.
      * intros H. inversion H. subst e'.
        apply hour_slot_errors in Hh. right. intuition.
    + intros H. inversion H. now left.
  - intros H. inversion H. now left.
Qed.

Lemma resolve_datetime_values (P : Pandas) (raw df : dataframe) :
  resolve_datetime P raw = Ok df -> exists ts, datetime_values df = Ok ts.
Proof.
  unfold resolve_datetime.
  destruct (get_col raw "datetime") as [s |].
  - intros H. inversion H. eexists. apply datetime_values_get, get_set_same.
  - destruct (get_col raw "Date") as [d |]; [| discriminate].
    destruct (get_col raw slot_col) as [h |]; [| discriminate].
    intros H.
    apply bind_ok in H. destruct H as (hours & _ & H).
    apply bind_ok in H. destruct H as (dt & _ & H).
    inversion H. eexists. apply datetime_values_get, get_set_same.
Qed.

Lemma recompute_nets_errors (cfg : list (string * (string * string)))
  (df : dataframe) (e : error) :
  recompute_nets cfg df = Err e -> e = TypeError.
Proof.
  revert df.
  induction cfg as [| [code [ex im]] rest IH]; simpl; intros df;
    [discriminate |].
  destruct (get_col df ex) as [se |]; [| apply IH].
  destruct (get_col df im) as [si |]; [| apply IH].
  destruct (abs_fillna se) as [xs | e'] eqn:Hxs; simpl.
  - destruct (abs_fillna si) as [ys | e''] eqn:Hys; simpl; [apply IH |].
    intros H. inversion H. subst e''.
    destruct si; simpl in Hys; try discriminate; now inversion Hys.
  - intros H. inversion H. subst e'.
    destruct se; simpl in Hxs; try discriminate; now inversion Hxs.
Qed.

Lemma select_floats_errors (df : dataframe) (e : error) :
  select_floats df (filter is_net (columns df)) = Err e -> e = TypeError.
Proof.
  unfold select_floats. intros H.
  apply mapM_err in H. destruct H as (n & Hin & Hn).
  apply filter_In in Hin. destruct Hin as [Hin _].
  destruct (get_col df n) as [s |] eqn:Hs.
  - destruct s; simpl in Hn; try discriminate; now inversion Hn.
  - apply get_col_in_columns in Hs. contradiction.
Qed.

(** How [load_data] fails: in the timestamp resolution, on its all-NaT check,
    on a partner column that is not numeric, or for want of a net column. *)
Lemma load_data_failure (P : Pandas) (raw : dataframe) (e : error) :
  load_data P raw = Err e ->
  resolve_datetime P raw = Err e \/
  exists ts, resolved_timestamps P raw = Ok ts /\
    ((isna_all ts = true /\ e = AllNaTError) \/
     (isna_all ts = false /\
      (e = TypeError \/
       (e = NoNetColumnsError /\ produced_net_columns raw = [])))).
Proof.
  unfold load_data, resolved_timestamps.
  destruct (resolve_datetime P raw) as [df1 | e1] eqn:H1; cbn [bind];
    [| intros H; now left].
  destruct (resolve_datetime_values P raw df1 H1) as (ts & Hts).
  rewrite Hts. cbn [bind]. intros H. right. exists ts. split; auto.
  destruct (isna_all ts) eqn:Hall.
  - inversion H. now left.
  - right. split; auto.
    destruct (recompute_nets partner_configs (drop_cols is_net df1))
      as [df3 | e3] eqn:H3; cbn [bind] in H.
    + pose proof (net_columns_after_recompute P raw df1 df3 H1 H3) as Hnames.
      destruct (filter is_net (columns df3)) as [| c cs] eqn:Hnet.
      * inversion H. right. auto.
      * rewrite <- Hnet in H.
        destruct (select_floats df3 (filter is_net (columns df3)))
          as [cols | e4] eqn:Hsel; cbn [bind] in H.
        -- unfold add_calendar in H.
           assert (Hdt : datetime_values
                     (set_col df3 "net_total"
                        (SFloat (sum_axis1 (nrows df3) cols))) = Ok ts).
           { apply datetime_values_get.
             rewrite get_set_other by discriminate.
             rewrite (recompute_nets_keeps_raw _ _ _ _ H3) by reflexivity.
             rewrite get_drop_keep by reflexivity.
             now apply datetime_values_get. }
           rewrite Hdt in H. discriminate.
        -- inversion H. subst e4. left.
           now apply (select_floats_errors df3).
    + inversion H. subst e3. left.
      now apply (recompute_nets_errors _ _ _ H3).
Qed.

(** X1. [load_data] raises the schema error exactly when the raw table has
    neither a combined timestamp column nor both the calendar-date and the
    hour-slot columns. *)
Theorem schema_error_iff_no_schema (P : Pandas) (raw : dataframe) :
  load_data P raw = Err SchemaError <-> has_schema raw = false.
Proof.
  split.
  - intros H. apply load_data_failure in H.
    destruct H as [H | (ts & _ & [[_ H] | [_ [H | [H _]]]])];
      try discriminate.
    apply resolve_datetime_errors in H.
    destruct H as [[_ H] | (_ & _ & [H | [H | H]])];
      [exact H | discriminate ..].
  - unfold has_schema, has_col, load_data, resolve_datetime.
    destruct (get_col raw "datetime"); [discriminate |].
    destruct (get_col raw "Date"); [| reflexivity].
    destruct (get_col raw slot_col); [discriminate | reflexivity].
Qed.

(** X2. The all-NaT error is raised exactly when the resolution succeeds and
    leaves no timestamp; the no-net-columns error exactly when it leaves at
    least one timestamp and no configured partner has both its raw columns. *)
Theorem data_loss_errors_iff (P : Pandas) (raw : dataframe) :
  (load_data P raw = Err AllNaTError <->
   exists ts, resolved_timestamps P raw = Ok ts /\ isna_all ts = true) /\
  (load_data P raw = Err NoNetColumnsError <->
   exists ts, resolved_timestamps P raw = Ok ts /\ isna_all ts = false /\
              produced_net_columns raw = []).
Proof.
  split; split.
  - intros H. apply load_data_failure in H.
    destruct H as [H | (ts & Hts & [[Hall _] | [_ [H | [H _]]]])];
      try discriminate; [| eauto].
    apply resolve_datetime_errors in H.
    destruct H as [[H _] | (_ & _ & [H | [H | H]])]; discriminate.
  - intros (ts & Hts & Hall).
    unfold resolved_timestamps in Hts.
    apply bind_ok in Hts. destruct Hts as (df & Hdf & Hts).
    unfold load_data. rewrite Hdf. cbn [bind]. rewrite Hts. cbn [bind].
    now rewrite Hall.
  - intros H. apply load_data_failure in H.
    destruct H as [H | (ts & Hts & [[_ H] | [Hall [H | [_ H]]]])];
      try discriminate; [| eauto].
    apply resolve_datetime_errors in H.
    destruct H as [[H _] | (_ & _ & [H | [H | H]])]; discriminate.
  - intros (ts & Hts & Hall & Hnone).
    unfold resolved_timestamps in Hts.
    apply bind_ok in Hts. destruct Hts as (df & Hdf & Hts).
    unfold load_data. rewrite Hdf. cbn [bind]. rewrite Hts. cbn [bind].
    rewrite Hall.
    assert (Hfilter : filter (both_present (drop_cols is_net df))
                        partner_configs = []).
    { rewrite (both_present_resolved P raw df Hdf).
      unfold produced_net_columns in Hnone.
      now apply map_eq_nil in Hnone. }
    rewrite (recompute_nets_none_present _ _ Hfilter). cbn [bind].
    now rewrite filter_is_net_drop.
Qed.




(** ** What passes through, what is replaced *)

(** The column names [load_data] writes itself, apart from the [net_*] ones. *)
Definition written_columns : list string :=
  ["datetime"; "Date"; "hour"; "date"; "year"; "month"; "day"].

(** X4. A successful load returns every other raw column as it was: a column
    that is neither a [net_*] column nor one of the timestamp and calendar
    columns the load writes is the same series in the canonical table as in
    the raw table; the partner flow columns and the hour-slot column are
    among those kept. *)
Theorem unrecognised_columns_pass_through (P : Pandas) (raw out : dataframe)
  (n : string) :
  load_data P raw = Ok out ->
  is_net n = false -> ~ In n written_columns ->
  get_col out n = get_col raw n.
Proof.
  intros Hload Hnet Hnot.
  apply load_data_ok in Hload.
  destruct Hload as (df1 & ts & df3 & cols & H1 & _ & _ & H3 & _ & _ & Hcal).
  unfold written_columns in Hnot. simpl in Hnot.
  rewrite (add_calendar_get_other _ _ _ Hcal) by intuition.
  rewrite get_set_other by (intros E; subst n; discriminate).
  rewrite (recompute_nets_keeps_raw _ _ _ _ H3) by assumption.
  rewrite get_drop_keep by assumption.
  apply (resolve_datetime_get_other P raw df1); intuition.
Qed.

Lemma unrecognised_columns_witness :
  get_col canonical_date_slot slot_col = get_col sample_date_slot slot_col.
Proof.
  apply (unrecognised_columns_pass_through reference sample_date_slot
           canonical_date_slot slot_col).
  - vm_compute. reflexivity.
  - reflexivity.
  - simpl. intuition discriminate.
Defined.

(** X5. A configured partner that lacks its export or its import column in
    the raw table has no [net_<partner>] column in the canonical table, also
    when the raw file carried one. *)
Theorem incomplete_partner_has_no_net_column (P : Pandas) (raw out : dataframe)
  (code exp_col imp_col : string) :
  load_data P raw = Ok out ->
  In (code, (exp_col, imp_col)) partner_configs ->
  has_col raw exp_col = false \/ has_col raw imp_col = false ->
  get_col out (net_name code) = None.
Proof.
  intros Hload Hin Hmiss.
  apply (net_column_absent P raw out); auto.
  - apply is_net_net_name.
  - intros H. apply in_app_or in H. destruct H as [H | [H | []]].
    + unfold produced_net_columns in H.
      apply in_map_iff in H. destruct H as ([c [ex im]] & Hc & Hf).
      apply filter_In in Hf. destruct Hf as [Hcin Hboth].
      simpl in Hc. apply net_name_inj in Hc. subst c.
      assert (Hsame : (ex, im) = (exp_col, imp_col)).
      { simpl in Hin, Hcin.
        repeat (destruct Hin as [Hin | Hin];
                [inversion Hin; subst;
                 repeat (destruct Hcin as [Hcin | Hcin];
                         [inversion Hcin; reflexivity |]);
                 contradiction |]).
        contradiction. }
      inversion Hsame. subst ex im.
      unfold both_present in Hboth. simpl in Hboth.
      apply andb_true_iff in Hboth. destruct Hboth as [He Hi].
      destruct Hmiss; congruence.
    + symmetry in H. apply (net_name_inj code "total") in H. subst code.
      simpl in Hin. intuition discriminate.
Qed.

(** Timestamps, the Swiss pair complete, the British pair without its import
    column, and a stale [net_GBR]. *)
Definition sample_incomplete : dataframe :=
  [ ("datetime", SObject [Some "2020-01-01 00:00:00"; Some "2020-01-01 01:00:00"]);
    ("FR vers GB (MWh)", SFloat [100; 20]%float);
    ("net_GBR", SFloat [60; -5]%float);
    ("FR vers CH (MWh)", SFloat [10; 0]%float);
    ("CH vers FR (MWh)", SFloat [4; 30]%float) ].

Definition canonical_incomplete : dataframe :=
  [ ("datetime", SDatetime [Some 1577836800000000000; Some 1577840400000000000]);
    ("FR vers GB (MWh)", SFloat [100; 20]%float);
    ("FR vers CH (MWh)", SFloat [10; 0]%float);
    ("CH vers FR (MWh)", SFloat [4; 30]%float);
    ("net_CHE", SFloat [6; -30]%float);
    ("net_total", SFloat [6; -30]%float);
    ("date", SDate [Some (2020, 1, 1); Some (2020, 1, 1)]);
    ("year", SField [Some 2020; Some 2020]);
    ("month", SLabel ["2020-01"; "2020-01"]);
    ("day", SField [Some 1; Some 1]);
    ("hour", SField [Some 0; Some 1]) ].

Lemma incomplete_partner_witness :
  get_col canonical_incomplete (net_name "GBR") = None.
Proof.
  apply (incomplete_partner_has_no_net_column reference sample_incomplete
           canonical_incomplete "GBR" "FR vers GB (MWh)" "GB vers FR (MWh)").
  - vm_compute. reflexivity.
  - simpl. auto.
  - right. reflexivity.
Defined.

(** X6. In every canonical table the calendar columns are those of its own
    [datetime] column, row by row, whatever the raw table held under the
    same names. *)
Theorem calendar_columns_follow_datetime (P : Pandas) (raw out : dataframe) :
  load_data P raw = Ok out ->
  exists ts,
    get_col out "datetime" = Some (SDatetime ts) /\
    get_col out "date" = Some (SDate (map (option_map dt_date) ts)) /\
    get_col out "year" = Some (SField (map (option_map dt_year) ts)) /\
    get_col out "month" = Some (SLabel (map month_label ts)) /\
    get_col out "day" = Some (SField (map (option_map dt_day) ts)) /\
    get_col out "hour" = Some (SField (map (option_map dt_hour) ts)).
Proof.
  intros Hload.
  destruct (load_data_calendar P raw out Hload) as (ts & _ & H).
  exists ts. exact H.
Qed.

(** A raw table that already has calendar columns, with other contents. *)
Definition sample_stale_calendar : dataframe :=
  [ ("year", SFloat [1999; 1999]%float);
    ("datetime", SObject [Some "2020-01-01 05:00:00"; Some "2020-01-02 00:00:00"]);
    ("month", SObject [Some "janvier"; Some "janvier"]);
    ("FR vers GB (MWh)", SFloat [100; 20]%float);
    ("GB vers FR (MWh)", SFloat [-40; 25]%float) ].

Definition canonical_stale_calendar : dataframe :=
  [ ("year", SField [Some 2020; Some 2020]);
    ("datetime", SDatetime [Some 1577854800000000000; Some 1577923200000000000]);
    ("month", SLabel ["2020-01"; "2020-01"]);
    ("FR vers GB (MWh)", SFloat [100; 20]%float);
    ("GB vers FR (MWh)", SFloat [-40; 25]%float);
    ("net_GBR", SFloat [60; -5]%float);
    ("net_total", SFloat [60; -5]%float);
    ("date", SDate [Some (2020, 1, 1); Some (2020, 1, 2)]);
    ("day", SField [Some 1; Some 2]);
    ("hour", SField [Some 5; Some 0]) ].

Lemma calendar_columns_witness :
  exists ts,
    get_col canonical_stale_calendar "datetime" = Some (SDatetime ts) /\
    get_col canonical_stale_calendar "date"
    = Some (SDate (map (option_map dt_date) ts)) /\
    get_col canonical_stale_calendar "year"
    = Some (SField (map (option_map dt_year) ts)) /\
    get_col canonical_stale_calendar "month"
    = Some (SLabel (map month_label ts)) /\
    get_col canonical_stale_calendar "day"
    = Some (SField (map (option_map dt_day) ts)) /\
    get_col canonical_stale_calendar "hour"
    = Some (SField (map (option_map dt_hour) ts)).
Proof.
  apply (calendar_columns_follow_datetime reference sample_stale_calendar).
  vm_compute. reflexivity.
Defined.

(** ** Hour slots out of range *)

Lemma infinity_repr : Prim2SF infinity = S754_infinity false.
Proof. reflexivity. Qed.

Lemma infinite_not_truncated (x : float) :
  PrimFloat.is_infinity x = true ->
  trunc_float x = None /\ PrimFloat.is_nan x = false.
Proof.
  unfold PrimFloat.is_infinity, trunc_float.
  rewrite is_nan_spec, eqb_spec, abs_spec, infinity_repr.
  destruct (Prim2SF x) as [s | s | | s m e]; simpl; try discriminate.
  destruct s; auto.
Qed.

Lemma astype_int_error (P : Pandas) (x : float) (e : error) :
  astype_int P x = Err e -> e = ValueError.
Proof.
  unfold astype_int.
  destruct (trunc_float x) as [z |].
  - destruct ((int64_min <=? z) && (z <=? int64_max)); discriminate.
  - now inversion 1.
Qed.

(** X7. In the date plus hour-slot schema an infinite hour slot is not
    clamped: the cast to integer raises and the load fails with a value
    error. *)
Theorem infinite_hour_slot_aborts_load (P : Pandas) (raw : dataframe)
  (d : series) (xs : list float) (x : float) :
  get_col raw "datetime" = None ->
  get_col raw "Date" = Some d ->
  get_col raw slot_col = Some (SFloat xs) ->
  In x xs -> PrimFloat.is_infinity x = true ->
  load_data P raw = Err ValueError.
Proof.
  intros Hdt Hd Hh Hin Hinf.
  destruct (infinite_not_truncated x Hinf) as [Htrunc Hnan].
  assert (Hslot : hour_slot P (SFloat xs) = Err ValueError).
  { unfold hour_slot. simpl.
    rewrite (mapM_error (astype_int P) (map fillna0 xs) x ValueError).
    - reflexivity.
    - apply astype_int_error.
    - apply in_map_iff. exists x. split; auto.
      unfold fillna0. now rewrite Hnan.
    - unfold astype_int. now rewrite Htrunc. }
  unfold load_data, resolve_datetime. rewrite Hdt, Hd, Hh, Hslot.
  reflexivity.
Qed.

Definition sample_infinite_slot : dataframe :=
  [ ("Date", SObject [Some "2020-01-01"; Some "2020-01-01"]);
    (slot_col, SFloat [7; infinity]%float);
    ("FR vers GB (MWh)", SFloat [100; 20]%float);
    ("GB vers FR (MWh)", SFloat [-40; 25]%float) ].

Lemma infinite_hour_slot_witness :
  load_data reference sample_infinite_slot = Err ValueError.
Proof.
  apply (infinite_hour_slot_aborts_load reference sample_infinite_slot
           (SObject [Some "2020-01-01"; Some "2020-01-01"])
           [7; infinity]%float infinity).
  - reflexivity.
  - reflexivity.
  - reflexivity.
  - simpl. auto.
  - reflexivity.
Defined.

Lemma hour_slot_range (P : Pandas) (h : series) (hours : list Z) :
  hour_slot P h = Ok hours -> Forall (fun z => 0 <= z <= 23) hours.
Proof.
  unfold hour_slot. intros H.
  apply bind_ok in H. destruct H as (xs & _ & H).
  apply bind_ok in H. destruct H as (zs & _ & H).
  inversion H. apply Forall_forall. intros z Hz.
  apply in_map_iff in Hz. destruct Hz as (z' & <- & _).
  apply clip_range. lia.
Qed.

(** A composed timestamp against its calendar date: missing when the date is
    missing, else from the date up to 23 hours after it. *)
Definition within_day (d t : option Z) : Prop :=
  match d, t with
  | None, None => True
  | Some a, Some b => a <= b <= a + 23 * ns_per_hour
  | _, _ => False
  end.

Lemma date_plus_hour_within (dates : list (option Z)) (hours : list Z) :
  List.length dates = List.length hours ->
  Forall (fun z => 0 <= z <= 23) hours ->
  Forall2 within_day dates
    (map (fun p => date_plus_hour (fst p) (snd p)) (combine dates hours)).
Proof.
  revert hours.
  induction dates as [| d dates IH]; intros [| h hours] Hlen Hall;
    simpl in *; try discriminate; constructor.
  - inversion Hall; subst.
    destruct d as [a |]; simpl; auto.
    unfold ns_per_hour. lia.
  - apply IH; [lia | now inversion Hall].
Qed.

(** X8. In the date plus hour-slot schema, whatever the hour slots hold
    (negative, above 23, fractional, missing), every timestamp the resolution
    returns lies from its parsed calendar date up to 23 hours after it, and
    is missing exactly when the date is. *)
Theorem composed_timestamps_stay_within_day (P : Pandas) (raw : dataframe)
  (d h : series) (ts : list (option Z)) :
  get_col raw "datetime" = None ->
  get_col raw "Date" = Some d ->
  get_col raw slot_col = Some h ->
  series_len d = series_len h ->
  resolved_timestamps P raw = Ok ts ->
  Forall2 within_day (to_datetime P d) ts.
Proof.
  intros Hdt Hd Hh Hlen Hres.
  rewrite (resolved_timestamps_date_schema P raw d h Hdt Hd Hh) in Hres.
  apply bind_ok in Hres. destruct Hres as (hours & Hhours & Hts).
  apply compose_datetime_values in Hts. subst ts.
  apply date_plus_hour_within.
  - rewrite to_datetime_length, Hlen. symmetry.
    now apply (hour_slot_length P).
  - now apply (hour_slot_range P h).
Qed.

Lemma composed_timestamps_witness :
  Forall2 within_day
    (to_datetime reference
       (SObject [Some "2020-01-01"; Some "2020-01-01";
                 Some "2020-01-02"; Some "2020-01-02"]))
    [Some 1577854800000000000; Some 1577836800000000000;
     Some 1578006000000000000; Some 1577923200000000000].
Proof.
  apply (composed_timestamps_stay_within_day reference sample_slots
           (SObject [Some "2020-01-01"; Some "2020-01-01";
                     Some "2020-01-02"; Some "2020-01-02"])
           (SFloat [5; nan; 30.5; -2]%float)).
  - reflexivity.
  - reflexivity.
  - reflexivity.
  - reflexivity.
  - vm_compute. reflexivity.
Defined.

(** ** Signs of the raw flows *)











(** * Further properties of the aggregator *)

(** The bucket labels of an aggregate, as the [datetime] column holds them. *)
Definition bucket_labels (g : granularity) (buckets : list Z) : list (option Z) :=
  map (fun k => Some (bucket_label g k)) buckets.

(** What [aggregate] goes through when it returns a table. *)
Lemma aggregate_ok (df agg : dataframe) (g : granularity) (ts : list (option Z)) :
  datetime_values df = Ok ts ->
  aggregate df g = Ok agg ->
  exists sums,
    mapM (sum_column g (bucket_range (resolved_keys g ts)) ts)
      (filter (fun c => starts_with_any flow_families (fst c)) df) = Ok sums /\
    agg =
    set_col
      (set_col
         (set_col
            (("datetime",
              SDatetime (bucket_labels g (bucket_range (resolved_keys g ts))))
             :: sums)
            "date"
            (SDate (map (option_map dt_date)
                      (bucket_labels g (bucket_range (resolved_keys g ts))))))
         "month"
         (SLabel (map month_label
                    (bucket_labels g (bucket_range (resolved_keys g ts))))))
      "year"
      (SField (map (option_map dt_year)
                 (bucket_labels g (bucket_range (resolved_keys g ts))))).
Proof.
  intros Hts Hagg.
  unfold aggregate in Hagg. rewrite Hts in Hagg. cbn [bind] in Hagg.
  destruct ts as [| t ts']; [| destruct (resolved_keys g (t :: ts'));
                                 [discriminate |]];
    apply bind_ok in Hagg; destruct Hagg as (sums & Hsums & Hagg);
    exists sums; (split; [exact Hsums |]);
    apply (f_equal (fun r => match r with Ok x => x | Err _ => [] end)) in Hagg;
    symmetry; exact Hagg.
Qed.

Lemma sum_columns_names (g : granularity) (buckets : list Z)
  (ts : list (option Z)) (l sums : dataframe) :
  mapM (sum_column g buckets ts) l = Ok sums -> columns sums = columns l.
Proof.
  revert sums.
  induction l as [| [k s0] l IH]; simpl; intros sums H.
  - now inversion H.
  - apply bind_ok in H. destruct H as (c & Hc & H).
    apply bind_ok in H. destruct H as (cs & Hcs & H).
    inversion H. subst sums.
    unfold sum_column in Hc. simpl in Hc.
    apply bind_ok in Hc. destruct Hc as (ys & _ & Hc).
    inversion Hc. simpl. f_equal. now apply IH.
Qed.

Lemma sum_columns_well_formed (g : granularity) (buckets : list Z)
  (ts : list (option Z)) (l sums : dataframe) :
  mapM (sum_column g buckets ts) l = Ok sums ->
  well_formed (List.length buckets) sums.
Proof.
  revert sums.
  induction l as [| [k s0] l IH]; simpl; intros sums H.
  - inversion H. constructor.
  - apply bind_ok in H. destruct H as (c & Hc & H).
    apply bind_ok in H. destruct H as (cs & Hcs & H).
    inversion H. subst sums.
    unfold sum_column in Hc. simpl in Hc.
    apply bind_ok in Hc. destruct Hc as (ys & _ & Hc).
    inversion Hc. constructor; [| now apply IH].
    simpl. unfold resample_sum. apply length_map.
Qed.

Lemma columns_filter (p : string -> bool) (df : dataframe) :
  columns (filter (fun c => p (fst c)) df) = filter p (columns df).
Proof.
  induction df as [| [k s] df IH]; simpl; auto.
  destruct (p k); simpl; now rewrite IH.
Qed.

(** X10. The shape of an aggregate: its columns are [datetime], then the
    columns of the input whose name starts with one of the flow or net
    prefixes, in their order, then [date], [month] and [year]; every other
    input column is dropped ([day] and [hour] among them); and every column
    has one cell per bucket. *)
Theorem aggregate_shape (df agg : dataframe) (g : granularity)
  (ts : list (option Z)) :
  datetime_values df = Ok ts ->
  aggregate df g = Ok agg ->
  columns agg
  = ("datetime" :: filter (starts_with_any flow_families) (columns df)
       ++ ["date"; "month"; "year"])%list /\
  well_formed (List.length (bucket_range (resolved_keys g ts))) agg.
Proof.
  intros Hts Hagg.
  destruct (aggregate_ok df agg g ts Hts Hagg) as (sums & Hsums & ->).
  pose proof (sum_columns_names _ _ _ _ _ Hsums) as Hnames.
  rewrite columns_filter in Hnames.
  pose proof (sum_columns_well_formed _ _ _ _ _ Hsums) as Hwf.
  assert (Hfresh : forall n, starts_with_any flow_families n = false ->
                             get_col sums n = None).
  { intros n Hn. apply get_col_in_columns. rewrite Hnames.
    intros Hin. apply filter_In in Hin. destruct Hin as [_ Hin]. congruence. }
  split.
  - rewrite columns_set_new.
    + rewrite columns_set_new.
      * rewrite columns_set_new.
        -- simpl. rewrite Hnames, <- !app_assoc. reflexivity.
        -- simpl. now apply Hfresh.
      * rewrite get_set_other by discriminate. simpl. now apply Hfresh.
    + rewrite !get_set_other by discriminate. simpl. now apply Hfresh.
  - repeat apply well_formed_set;
      try (simpl; unfold bucket_labels; now rewrite !length_map).
    constructor; auto.
    simpl. unfold bucket_labels. now rewrite length_map.
Qed.

Definition monthly_decimal : dataframe :=
  [ ("datetime", SDatetime [Some 1580428800000000000]);
    ("FR vers GB (MWh)", SFloat [0.6000000000000001]%float);
    ("GB vers FR (MWh)", SFloat [0]%float);
    ("net_GBR", SFloat [0.6000000000000001]%float);
    ("net_total", SFloat [0.6000000000000001]%float);
    ("date", SDate [Some (2020, 1, 31)]);
    ("month", SLabel ["2020-01"]);
    ("year", SField [Some 2020]) ].

Example aggregate_monthly_decimal :
  aggregate canonical_decimal Monthly = Ok monthly_decimal.
Proof. vm_compute. reflexivity. Qed.

Lemma aggregate_shape_witness :
  columns daily_decimal
  = ("datetime" :: filter (starts_with_any flow_families)
                     (columns canonical_decimal)
       ++ ["date"; "month"; "year"])%list /\
  well_formed
    (List.length
       (bucket_range
          (resolved_keys Daily
             [Some 1577919600000000000; Some 1577923200000000000;
              Some 1577926800000000000])))
    daily_decimal.
Proof.
  apply (aggregate_shape canonical_decimal daily_decimal Daily).
  - reflexivity.
  - vm_compute. reflexivity.
Defined.







(** ** Bucket labels and the calendar *)

(** [civil_from_days] within one 400-year era, from the day of the era. *)
Definition civil_of_doe (doe : Z) : date :=
  let yoe := (doe - doe / 1460 + doe / 36524 - doe / 146096) / 365 in
  let doy := doe - (365 * yoe + yoe / 4 - yoe / 100) in
  let mp := (5 * doy + 2) / 153 in
  let d := doy - (153 * mp + 2) / 5 + 1 in
  let m := if mp <? 10 then mp + 3 else mp - 9 in
  (if m <=? 2 then yoe + 1 else yoe, m, d).

Lemma civil_from_days_era (era doe : Z) :
  0 <= doe < 146097 ->
  civil_from_days (era * 146097 + doe - 719468)
  = let '(y, m, d) := civil_of_doe doe in (y + era * 400, m, d).
Proof.
  intros Hdoe.
  assert (E1 : (era * 146097 + doe - 719468 + 719468) / 146097 = era).
  { symmetry. apply (Z.div_unique _ _ era doe); lia. }
  unfold civil_from_days, civil_of_doe. cbv zeta. rewrite E1.
  replace (era * 146097 + doe - 719468 + 719468 - era * 146097) with doe
    by lia.
  repeat match goal with
         | |- context [if ?c then _ else _] => destruct c
         end;
    f_equal; f_equal; lia.
Qed.

(** The integers from [start], [n] of them. *)
Fixpoint Z_upto (n : nat) (start : Z) : list Z :=
  match n with
  | O => []
  | S n' => start :: Z_upto n' (start + 1)
  end.

Lemma Z_upto_In (n : nat) (start z : Z) :
  start <= z < start + Z.of_nat n -> In z (Z_upto n start).
Proof.
  revert start.
  induction n as [| n IH]; intros start Hz; [lia |].
  cbn [Z_upto]. destruct (Z.eq_dec start z); [now left | right].
  apply IH. lia.
Qed.

Definition month_in_range (doe : Z) : bool :=
  let '(_, m, _) := civil_of_doe doe in (1 <=? m) && (m <=? 12).

Lemma months_in_range_checked :
  forallb month_in_range (Z_upto (Z.to_nat 146097) 0) = true.
Proof. vm_compute. reflexivity. Qed.

(** Every day falls in a month from 1 to 12. *)
Lemma dt_month_range (t : Z) : 1 <= dt_month t <= 12.
Proof.
  unfold dt_month, dt_date.
  set (z := day_number t).
  set (doe := (z + 719468) mod 146097).
  assert (Hdoe : 0 <= doe < 146097) by (apply Z.mod_pos_bound; lia).
  replace z with ((z + 719468) / 146097 * 146097 + doe - 719468)
    by (unfold doe; rewrite Z.mod_eq by lia; lia).
  rewrite civil_from_days_era by assumption.
  pose proof months_in_range_checked as Hall.
  rewrite forallb_forall in Hall.
  assert (Hin : In doe (Z_upto (Z.to_nat 146097) 0))
    by (apply Z_upto_In; rewrite Z2Nat.id; lia).
  specialize (Hall doe Hin).
  unfold month_in_range in Hall.
  destruct (civil_of_doe doe) as [[y m] d].
  apply andb_true_iff in Hall. lia.
Qed.

(** The day of the era on which month [M] of year-of-era [yoe] starts, as
    [days_from_civil] counts it (years starting in March). *)
Definition doe_of_month_start (yoe M : Z) : Z :=
  yoe * 365 + yoe / 4 - yoe / 100
  + ((153 * (if 2 <? M then M - 3 else M + 9) + 2) / 5 + 1 - 1).

(** The day before month [M] starts lies in the month before it. *)
Definition month_end_checked (yoe M : Z) : bool :=
  let doe := doe_of_month_start yoe M in
  let target := (yoe + (if M <=? 2 then 1 else 0)) * 12 + M - 2 in
  if 1 <=? doe then
    (doe - 1 <? 146097)
    && (let '(y, m, _) := civil_of_doe (doe - 1) in y * 12 + (m - 1) =? target)
  else
    (doe =? 0)
    && (let '(y, m, _) := civil_of_doe 146096 in
        (y - 400) * 12 + (m - 1) =? target).

Lemma month_ends_checked :
  forallb (fun yoe => forallb (month_end_checked yoe) (Z_upto 12 1))
    (Z_upto 400 0) = true.
Proof. vm_compute. reflexivity. Qed.

(** The label of a monthly bucket lies in the month the bucket stands for. *)
Lemma month_of_label (k : Z) :
  dt_year (bucket_label Monthly k) * 12
  + (dt_month (bucket_label Monthly k) - 1) = k.
Proof.
  unfold dt_year, dt_month, dt_date, bucket_label, day_number.
  rewrite Z.div_mul by (unfold ns_per_day, ns_per_hour; lia).
  set (Y := (k + 1) / 12). set (M := (k + 1) mod 12 + 1).
  assert (HM : 1 <= M <= 12)
    by (unfold M; pose proof (Z.mod_pos_bound (k + 1) 12); lia).
  assert (Hk : k = 12 * Y + M - 2)
    by (unfold Y, M; rewrite Z.mod_eq by lia; lia).
  unfold days_from_civil. cbv zeta.
  set (y' := if M <=? 2 then Y - 1 else Y).
  set (era := y' / 400). set (yoe := y' - era * 400).
  assert (Hyoe : 0 <= yoe < 400).
  { unfold yoe, era. pose proof (Z.mod_pos_bound y' 400).
    rewrite Z.mod_eq in H by lia. lia. }
  pose proof month_ends_checked as Hall.
  rewrite forallb_forall in Hall.
  specialize (Hall yoe (Z_upto_In 400 0 yoe ltac:(lia))).
  rewrite forallb_forall in Hall.
  specialize (Hall M (Z_upto_In 12 1 M ltac:(lia))).
  unfold month_end_checked, doe_of_month_start in Hall. cbv zeta in Hall.
  set (doe := yoe * 365 + yoe / 4 - yoe / 100
              + ((153 * (if 2 <? M then M - 3 else M + 9) + 2) / 5 + 1 - 1))
    in *.
  assert (Hy : Y = era * 400 + yoe + (if M <=? 2 then 1 else 0)).
  { unfold yoe, y'. destruct (M <=? 2); lia. }
  destruct (1 <=? doe) eqn:Hdoe.
  - apply andb_true_iff in Hall. destruct Hall as [Hlt Hall].
    replace (era * 146097 + doe - 719468 - 1)
      with (era * 146097 + (doe - 1) - 719468) by lia.
    rewrite civil_from_days_era by lia.
    destruct (civil_of_doe (doe - 1)) as [[y m] d].
    apply Z.eqb_eq in Hall. lia.
  - apply andb_true_iff in Hall. destruct Hall as [Hz Hall].
    apply Z.eqb_eq in Hz.
    replace (era * 146097 + doe - 719468 - 1)
      with ((era - 1) * 146097 + 146096 - 719468) by lia.
    rewrite civil_from_days_era by lia.
    destruct (civil_of_doe 146096) as [[y m] d].
    apply Z.eqb_eq in Hall. lia.
Qed.

Lemma ns_per_day_pos : 0 < ns_per_day.
Proof. unfold ns_per_day, ns_per_hour. lia. Qed.

(** The label of a bucket falls in the bucket itself. *)
Lemma label_in_own_bucket (g : granularity) (k : Z) :
  bucket_of g (bucket_label g k) = k.
Proof.
  destruct g; unfold bucket_of, bucket_label.
  - apply Z.div_mul. unfold ns_per_hour. lia.
  - unfold day_number. apply Z.div_mul. pose proof ns_per_day_pos. lia.
  - unfold day_number. rewrite Z.div_mul by (pose proof ns_per_day_pos; lia).
    symmetry. apply (Z.div_unique _ _ k 6); lia.
  - apply month_of_label.
Qed.

Lemma resolved_keys_In (g : granularity) (ts : list (option Z)) (t : Z) :
  In (Some t) ts -> In (bucket_of g t) (resolved_keys g ts).
Proof.
  intros Hin. unfold resolved_keys. apply in_flat_map.
  exists (Some t). split; [exact Hin | now left].
Qed.

Lemma aggregate_datetime (df agg : dataframe) (g : granularity)
  (ts : list (option Z)) :
  datetime_values df = Ok ts ->
  aggregate df g = Ok agg ->
  get_col agg "datetime"
  = Some (SDatetime (bucket_labels g (bucket_range (resolved_keys g ts)))) /\
  get_col agg "month"
  = Some (SLabel (map month_label
                    (bucket_labels g (bucket_range (resolved_keys g ts))))) /\
  get_col agg "year"
  = Some (SField (map (option_map dt_year)
                    (bucket_labels g (bucket_range (resolved_keys g ts))))).
Proof.
  intros Hts Hagg.
  destruct (aggregate_ok df agg g ts Hts Hagg) as (sums & _ & ->).
  split; [| split].
  - rewrite !get_set_other by discriminate. reflexivity.
  - rewrite get_set_other by discriminate. apply get_set_same.
  - apply get_set_same.
Qed.

(** X12. Every row with a timestamp is represented in the aggregate: there is
    a bucket row whose own timestamp falls in the same bucket as the row's,
    at every granularity. *)
Theorem every_row_has_its_bucket (df agg : dataframe) (g : granularity)
  (ts : list (option Z)) (t : Z) :
  datetime_values df = Ok ts ->
  aggregate df g = Ok agg ->
  In (Some t) ts ->
  exists j label,
    cell_at agg "datetime" j = Some (CTime (Some label)) /\
    bucket_of g label = bucket_of g t.
Proof.
  intros Hts Hagg Hin.
  destruct (aggregate_datetime df agg g ts Hts Hagg) as (Hdt & _ & _).
  destruct (In_nth_error _ _
              (bucket_range_covers _ _ (resolved_keys_In g ts t Hin)))
    as (j & Hj).
  exists j, (bucket_label g (bucket_of g t)). split.
  - unfold cell_at. rewrite Hdt. simpl.
    unfold bucket_labels. now rewrite nth_error_map, Hj.
  - apply label_in_own_bucket.
Qed.

Lemma every_row_has_its_bucket_witness :
  exists j label,
    cell_at daily_decimal "datetime" j = Some (CTime (Some label)) /\
    bucket_of Daily label = bucket_of Daily 1577926800000000000.
Proof.
  apply (every_row_has_its_bucket canonical_decimal daily_decimal Daily
           [Some 1577919600000000000; Some 1577923200000000000;
            Some 1577926800000000000]).
  - reflexivity.
  - vm_compute. reflexivity.
  - simpl. auto.
Defined.

Lemma month_label_of_bucket (g : granularity) (t : Z) :
  g <> Weekly ->
  dt_year (bucket_label g (bucket_of g t)) = dt_year t /\
  dt_month (bucket_label g (bucket_of g t)) = dt_month t.
Proof.
  intros Hg.
  destruct g; [| | contradiction |].
  - assert (Hday : day_number (bucket_label Hourly (bucket_of Hourly t))
                   = day_number t).
    { unfold day_number, bucket_label, bucket_of, ns_per_day.
      assert (Hh : 0 < ns_per_hour) by (unfold ns_per_hour; lia).
      rewrite Z.div_mul_cancel_r by lia.
      rewrite Z.div_div by lia.
      f_equal. }
    unfold dt_year, dt_month, dt_date. now rewrite Hday.
  - assert (Hday : day_number (bucket_label Daily (bucket_of Daily t))
                   = day_number t).
    { unfold day_number, bucket_label, bucket_of, day_number.
      apply Z.div_mul. pose proof ns_per_day_pos. lia. }
    unfold dt_year, dt_month, dt_date. now rewrite Hday.
  - pose proof (month_of_label (bucket_of Monthly t)) as H.
    pose proof (dt_month_range t).
    pose proof (dt_month_range (bucket_label Monthly (bucket_of Monthly t))).
    simpl bucket_of in H at 3. lia.
Qed.

(** X13. In an hourly, daily or monthly aggregate, the month label and the
    year re-derived for a bucket are those of every row that falls in it:
    each row with a timestamp has a bucket row carrying the row's own month
    and year. *)
Theorem bucket_month_and_year_match_rows (df agg : dataframe) (g : granularity)
  (ts : list (option Z)) (t : Z) :
  g <> Weekly ->
  datetime_values df = Ok ts ->
  aggregate df g = Ok agg ->
  In (Some t) ts ->
  exists j,
    cell_at agg "datetime" j
    = Some (CTime (Some (bucket_label g (bucket_of g t)))) /\
    cell_at agg "month" j = Some (CLabel (month_label (Some t))) /\
    cell_at agg "year" j = Some (CField (Some (dt_year t))).
Proof.
  intros Hg Hts Hagg Hin.
  destruct (aggregate_datetime df agg g ts Hts Hagg) as (Hdt & Hmonth & Hyear).
  destruct (In_nth_error _ _
              (bucket_range_covers _ _ (resolved_keys_In g ts t Hin)))
    as (j & Hj).
  destruct (month_label_of_bucket g t Hg) as [Hy Hm].
  exists j. unfold cell_at. rewrite Hdt, Hmonth, Hyear. simpl.
  unfold bucket_labels. rewrite !nth_error_map, Hj. simpl.
  unfold month_label. rewrite Hy, Hm. auto.
Qed.

Lemma bucket_month_and_year_witness :
  exists j,
    cell_at monthly_decimal "datetime" j
    = Some (CTime (Some (bucket_label Monthly
                           (bucket_of Monthly 1577926800000000000)))) /\
    cell_at monthly_decimal "month" j
    = Some (CLabel (month_label (Some 1577926800000000000))) /\
    cell_at monthly_decimal "year" j
    = Some (CField (Some (dt_year 1577926800000000000))).
Proof.
  apply (bucket_month_and_year_match_rows canonical_decimal monthly_decimal
           Monthly
           [Some 1577919600000000000; Some 1577923200000000000;
            Some 1577926800000000000]).
  - discriminate.
  - reflexivity.
  - vm_compute. reflexivity.
  - simpl. auto.
Defined.

(** A week runs into the next month: Thursday 2020-01-30 is in the week
    labelled Sunday 2020-02-02. *)
Example weekly_label_in_next_month :
  month_label (Some (18291 * ns_per_day)) = "2020-01" /\
  month_label (Some (bucket_label Weekly (bucket_of Weekly (18291 * ns_per_day))))
  = "2020-02".
Proof. split; vm_compute; reflexivity. Qed.

(** * The dashboard's use of the core *)

(** ** The period filter and the indicators (lines 177-192) *)






(** [c.endswith(suffix)] and [sub in c]. *)
Definition reverse (s : string) : string :=
  string_of_list_ascii (rev (list_ascii_of_string s)).

Definition ends_with (suffix s : string) : bool :=
  String.prefix (reverse suffix) (reverse s).

Definition contains (sub s : string) : bool :=
  match String.index 0 sub s with
  | Some _ => true
  | None => false
  end.

Definition is_export (c : string) : bool := String.prefix "FR vers" c.

Definition is_import (c : string) : bool :=
  ends_with "vers FR (MWh)" c || contains "->FR" c.

Definition exp_cols (agg : dataframe) : list string :=
  filter is_export (columns agg).

Definition imp_cols (agg : dataframe) : list string :=
  filter is_import (columns agg).

(** [agg[names].sum().sum()]: the sum of the column sums. *)
Definition sum_sum (agg : dataframe) (names : list string) : result float :=
  cols <- select_floats agg names ;; Ok (nansum (map nansum cols)).

(** [agg[cols].sum().sum() if cols else np.nan]. *)
Definition total_of (agg : dataframe) (names : list string) : result float :=
  match names with
  | [] => Ok nan
  | _ :: _ => sum_sum agg names
  end.

Definition total_export (agg : dataframe) : result float :=
  total_of agg (exp_cols agg).

Definition total_import (agg : dataframe) : result float :=
  total_of agg (imp_cols agg).

Example is_import_samples :
  map is_import ["GB vers FR (MWh)"; "CWE/Core->FR"; "FR->CWE/Core";
                 "FR vers GB (MWh)"; "net_GBR"]
  = [true; true; false; false; false].
Proof. vm_compute. reflexivity. Qed.

Lemma filter_columns_set_other (p : string -> bool) (df : dataframe)
  (n : string) (s : series) :
  p n = false ->
  filter p (columns (set_col df n s)) = filter p (columns df).
Proof.
  intros Hn.
  induction df as [| [k s0] rest IH]; simpl.
  - now rewrite Hn.
  - destruct (String.eqb k n); simpl; [reflexivity |].
    now rewrite IH.
Qed.

(** X14. The cumulative-export indicator adds the columns named "FR vers ..."
    only: the export column of the CWE/Core pair, [FR->CWE/Core], never
    enters it, whatever it holds, while the import indicator does count
    [CWE/Core->FR] when the table has it. *)
Theorem export_total_leaves_out_cwe (agg : dataframe) :
  ~ In "FR->CWE/Core" (exp_cols agg) /\
  (forall s, total_export (set_col agg "FR->CWE/Core" s) = total_export agg) /\
  (has_col agg "CWE/Core->FR" = true -> In "CWE/Core->FR" (imp_cols agg)).
Proof.
  split; [| split].
  - unfold exp_cols. intros H. apply filter_In in H.
    destruct H as [_ H]. discriminate.
  - intros s. unfold total_export, exp_cols.
    rewrite filter_columns_set_other by reflexivity.
    destruct (filter is_export (columns agg)) as [| c cs] eqn:Hcols;
      [reflexivity |].
    unfold total_of, sum_sum. f_equal.
    apply select_floats_ext. intros n Hn.
    apply get_set_other. intros E. subst n.
    rewrite <- Hcols in Hn. apply filter_In in Hn.
    destruct Hn as [_ Hn]. discriminate.
  - unfold has_col, imp_cols. intros H. apply filter_In. split.
    + destruct (get_col agg "CWE/Core->FR") eqn:E; [| discriminate].
      destruct (in_dec string_dec "CWE/Core->FR" (columns agg)) as [Hin | Hn];
        auto.
      apply get_col_in_columns in Hn. congruence.
    + reflexivity.
Qed.











(** ** The formatter's separator *)

Lemma replace_commas_no_comma (t : string) :
  ~ In ","%char (list_ascii_of_string (replace_commas t)).
Proof.
  induction t as [| c t IH]; simpl; [tauto |].
  intros [H | H]; [| contradiction].
  destruct (Ascii.eqb c ","%char) eqn:E.
  - discriminate.
  - apply Ascii.eqb_neq in E. congruence.
Qed.

(** X16. No text [format_mwh] returns holds a comma: the thousands separator
    Python writes is always replaced by a space, at every scale and for every
    input. *)
Theorem format_mwh_has_no_comma (x : float) :
  ~ In ","%char (list_ascii_of_string (format_mwh x)).
Proof.
  unfold format_mwh.
  destruct (PrimFloat.is_nan x).
  - vm_compute. intuition discriminate.
  - destruct (1e6 <=? PrimFloat.abs x)%float;
      [| destruct (1e3 <=? PrimFloat.abs x)%float];
      apply replace_commas_no_comma.
Qed.

(** ** Hour slots in range *)

Definition slot_kept (h : Z) : bool :=
  match trunc_float (fillna0 (float_of_Z h)) with
  | Some z => z =? h
  | None => false
  end.

Lemma slots_kept_checked : forallb slot_kept (Z_upto 24 0) = true.
Proof. vm_compute. reflexivity. Qed.

Lemma astype_int_of_hour (P : Pandas) (h : Z) :
  0 <= h <= 23 -> astype_int P (fillna0 (float_of_Z h)) = Ok h.
Proof.
  intros Hh.
  pose proof slots_kept_checked as Hall. rewrite forallb_forall in Hall.
  specialize (Hall h (Z_upto_In 24 0 h ltac:(lia))).
  unfold slot_kept in Hall. unfold astype_int.
  destruct (trunc_float (fillna0 (float_of_Z h))) as [z |]; [| discriminate].
  apply Z.eqb_eq in Hall. subst z.
  replace ((int64_min <=? h) && (h <=? int64_max)) with true; [reflexivity |].
  symmetry. apply andb_true_iff. unfold int64_min, int64_max. lia.
Qed.

(** X17. Hour slots that are whole hours from 0 to 23 are taken as they are:
    the coercion returns exactly those hours, so each timestamp is its date
    plus the recorded hour. *)
Theorem valid_hour_slots_are_kept (P : Pandas) (hours : list Z) :
  Forall (fun h => 0 <= h <= 23) hours ->
  hour_slot P (SFloat (map float_of_Z hours)) = Ok hours.
Proof.
  intros Hall. unfold hour_slot. simpl.
  assert (Hcast : mapM (astype_int P) (map fillna0 (map float_of_Z hours))
                  = Ok hours).
  { induction Hall as [| h hours Hh Hall IH]; simpl; [reflexivity |].
    now rewrite (astype_int_of_hour P h Hh), IH. }
  assert (Hclip : map (clip 0 23) hours = hours).
  { clear Hcast.
    induction Hall as [| h hours Hh Hall IH]; simpl; [reflexivity |].
    rewrite IH. f_equal. unfold clip.
    destruct (h <? 0) eqn:E1; [apply Z.ltb_lt in E1; lia |].
    destruct (23 <? h) eqn:E2; [apply Z.ltb_lt in E2; lia | reflexivity]. }
  rewrite Hcast. cbn [bind]. now rewrite Hclip.
Qed.

Lemma valid_hour_slots_witness :
  hour_slot reference (SFloat (map float_of_Z [0; 5; 23])) = Ok [0; 5; 23].
Proof.
  apply (valid_hour_slots_are_kept reference [0; 5; 23]).
  repeat constructor; lia.
Defined.
